(** * The debug mode of Mu: breakpoints, markers and the session life cycle

    A shallow embedding of [mu/modes/debugger.py] (class [DebugMode]) and the
    properties its specification states about it.

    The mode object, the view with its editor tabs, the button bar and the
    debugger client are mutable Python objects.  They are modelled as one
    record [DebugMode] threaded through a state-and-exception monad: a method
    either finishes in a new state or raises a Python exception in the state
    reached so far. *)

From stdpp Require Import base option list gmap strings fin_maps fin_sets.
From Stdlib Require Import ZArith Lia.

Local Open Scope string_scope.
Local Open Scope list_scope.
Local Open Scope nat_scope.
#[local] Set Warnings "-clear-no-such-hyp".

(** ** Data *)

(** [tab.path]: [None] for a tab that was never saved. *)
Abbreviation filename := (option string) (only parsing).

(** A breakpoint record, as the debugger client hands it to the mode.  The
    mode reads [line] (1-based) and [enabled]. *)
Record Breakpoint := mkBreakpoint {
  bp_file : filename;
  bp_line : Z;
  bp_enabled : bool;
  bp_ignore_count : nat
}.

Definition set_enabled (b : bool) (bp : Breakpoint) : Breakpoint :=
  mkBreakpoint (bp_file bp) (bp_line bp) b (bp_ignore_count bp).

Definition set_file (f : filename) (bp : Breakpoint) : Breakpoint :=
  mkBreakpoint f (bp_line bp) (bp_enabled bp) (bp_ignore_count bp).

(** Requests the mode sends through the debugger client, named after the
    client methods the source calls. *)
Inductive Request :=
| Req_run
| Req_create (file : filename) (line : Z)
| Req_enable (bp : Breakpoint)
| Req_disable (bp : Breakpoint).

(** The 1-based line a breakpoint request addresses. *)
Definition request_line (r : Request) : option Z :=
  match r with
  | Req_run => None
  | Req_create _ line => Some line
  | Req_enable bp | Req_disable bp => Some (bp_line bp)
  end.

Definition is_create (r : Request) : bool :=
  match r with Req_create _ _ => true | _ => false end.

(** Modelled from the spec: the debugger client ([mu.debugger.client.Debugger])
    is not part of the source at hand.  It is both the per-file breakpoint
    store ([bp_index]: file, then 1-based line, to record) and the link to the
    debuggee; [outbox] lists the requests sent so far, oldest first. *)
Record Debugger := mkDebugger {
  bp_index : gmap filename (gmap Z Breakpoint);
  outbox : list Request
}.

(** An editor tab.  [markers] is the set of 0-based lines carrying the
    breakpoint marker, [selection] the arguments of the last [setSelection]. *)
Record Tab := mkTab {
  path : filename;
  markers : gset Z;
  breakpoint_lines : gset Z;
  selection : Z * Z * Z * Z
}.

(** The view: its tabs in order, the position of the tab shown (if any), and
    the session widgets.  [slots] is [button_bar.slots] with the enabled flag
    of each button. *)
Record View := mkView {
  widgets : list Tab;
  current : option nat;
  read_only : bool;
  python_runner : bool;
  debug_inspector : bool;
  slots : gmap string bool
}.

Record Editor := mkEditor {
  mode : string;
  status_messages : list string
}.

(** [self.runner]: the handle of the debugged process. *)
Record Runner := mkRunner {
  process_running : bool
}.

Record DebugMode := mkDebugMode {
  runner : option Runner;
  debugger : option Debugger;
  view : View;
  editor : Editor
}.

(** ** Field updates *)

Definition with_runner (r : option Runner) (self : DebugMode) : DebugMode :=
  mkDebugMode r (debugger self) (view self) (editor self).

Definition with_debugger (d : option Debugger) (self : DebugMode) : DebugMode :=
  mkDebugMode (runner self) d (view self) (editor self).

Definition with_view (v : View) (self : DebugMode) : DebugMode :=
  mkDebugMode (runner self) (debugger self) v (editor self).

Definition with_editor (e : Editor) (self : DebugMode) : DebugMode :=
  mkDebugMode (runner self) (debugger self) (view self) e.

Definition with_widgets (ws : list Tab) (v : View) : View :=
  mkView ws (current v) (read_only v) (python_runner v) (debug_inspector v)
    (slots v).

Definition with_read_only (b : bool) (v : View) : View :=
  mkView (widgets v) (current v) b (python_runner v) (debug_inspector v)
    (slots v).

Definition with_python_runner (b : bool) (v : View) : View :=
  mkView (widgets v) (current v) (read_only v) b (debug_inspector v) (slots v).

Definition with_debug_inspector (b : bool) (v : View) : View :=
  mkView (widgets v) (current v) (read_only v) (python_runner v) b (slots v).

Definition with_slots (s : gmap string bool) (v : View) : View :=
  mkView (widgets v) (current v) (read_only v) (python_runner v)
    (debug_inspector v) s.

(** ** The tab's marker and selection interface *)

Definition markersAtLine (line : Z) (tab : Tab) : bool :=
  bool_decide (line ∈ markers tab).

Definition markerAdd (line : Z) (tab : Tab) : Tab :=
  mkTab (path tab) ({[line]} ∪ markers tab) (breakpoint_lines tab)
    (selection tab).

Definition markerDelete (line : Z) (tab : Tab) : Tab :=
  mkTab (path tab) (markers tab ∖ {[line]}) (breakpoint_lines tab)
    (selection tab).

Definition markerDeleteAll (tab : Tab) : Tab :=
  mkTab (path tab) ∅ (breakpoint_lines tab) (selection tab).

Definition setSelection (l1 c1 l2 c2 : Z) (tab : Tab) : Tab :=
  mkTab (path tab) (markers tab) (breakpoint_lines tab) (l1, c1, l2, c2).

Definition set_breakpoint_lines (s : gset Z) (tab : Tab) : Tab :=
  mkTab (path tab) (markers tab) s (selection tab).

Definition breakpoint_lines_add (line : Z) (tab : Tab) : Tab :=
  set_breakpoint_lines ({[line]} ∪ breakpoint_lines tab) tab.

(** ** The debugger client *)

Module Client.

(** Modelled from the spec: [all_for(file)], the records of one file; a
    file the store has never seen has none. *)
Definition breakpoints (d : Debugger) (file : filename) : gmap Z Breakpoint :=
  default ∅ (bp_index d !! file).

Definition send (r : Request) (d : Debugger) : Debugger :=
  mkDebugger (bp_index d) (outbox d ++ [r]).

Definition flip (b : bool) (bp : Breakpoint) (d : Debugger) : Debugger :=
  mkDebugger
    (alter (alter (set_enabled b) (bp_line bp)) (bp_file bp) (bp_index d))
    (outbox d).

(** Modelled from the spec: [enable(bp)] and [disable(bp)] are state flips
    of the record the store holds for the breakpoint's (file, line); each is
    also sent to the debuggee. *)
Definition enable_breakpoint (bp : Breakpoint) (d : Debugger) : Debugger :=
  send (Req_enable bp) (flip true bp d).

Definition disable_breakpoint (bp : Breakpoint) (d : Debugger) : Debugger :=
  send (Req_disable bp) (flip false bp d).

(** Modelled from the spec: [create(file, line)] is create-or-reuse: a
    record already at that line is kept and re-enabled, otherwise a fresh
    enabled record is stored; the request goes out in both cases. *)
Definition create_breakpoint (file : filename) (line : Z) (d : Debugger)
  : Debugger :=
  let bps := breakpoints d file in
  let bp := match bps !! line with
            | Some existing => set_enabled true existing
            | None => mkBreakpoint file line true 0
            end in
  send (Req_create file line)
    (mkDebugger (<[file := <[line := bp]> bps]> (bp_index d)) (outbox d)).

Definition do_run (d : Debugger) : Debugger := send Req_run d.

(** Every record sits under its own file and line. *)
Definition well_keyed (d : Debugger) : Prop :=
  ∀ file line bp,
    breakpoints d file !! line = Some bp →
    bp_file bp = file ∧ bp_line bp = line.

End Client.

(** ** Methods as state transformers that may raise *)

Inductive PyError := AttributeError | KeyError | RuntimeError.

Inductive Res (A : Type) :=
| Done (a : A) (self : DebugMode)
| Raise (e : PyError) (self : DebugMode).
Arguments Done {A} a self.
Arguments Raise {A} e self.

Definition M (A : Type) : Type := DebugMode → Res A.

Definition ret {A} (a : A) : M A := λ self, Done a self.

Definition bind {A B} (k : A → M B) (m : M A) : M B :=
  λ self, match m self with
          | Done a self' => k a self'
          | Raise e self' => Raise e self'
          end.

#[export] Instance M_ret : MRet M := @ret.
#[export] Instance M_bind : MBind M := @bind.

Definition raise {A} (e : PyError) : M A := λ self, Raise e self.
Definition get : M DebugMode := λ self, Done self self.
Definition modify (f : DebugMode → DebugMode) : M unit :=
  λ self, Done tt (f self).

Fixpoint for_each {A} (l : list A) (body : A → M unit) : M unit :=
  match l with
  | [] => ret tt
  | x :: l' => body x ;; for_each l' body
  end.

(** ** Access to the objects the methods touch *)

(** [self.debugger.<method>(...)]: raises [AttributeError] when
    [self.debugger] is [None]. *)
Definition the_debugger : M Debugger :=
  self ← get;
  match debugger self with
  | Some d => mret d
  | None => raise AttributeError
  end.

Definition call_debugger (method : Debugger → Debugger) : M unit :=
  d ← the_debugger;
  modify (with_debugger (Some (method d))).

(** Tab objects are shared between [view.widgets], [view.current_tab] and the
    callers of the mode; a tab is therefore named by its position in
    [view.widgets].  A position that names no tab stands for a tab object the
    view no longer holds (PyQt raises [RuntimeError] on such a widget). *)
Definition tab_at (i : nat) (self : DebugMode) : option Tab :=
  widgets (view self) !! i.

Definition read_tab (i : nat) : M Tab :=
  self ← get;
  match tab_at i self with
  | Some tab => mret tab
  | None => raise RuntimeError
  end.

Definition update_tab (i : nat) (f : Tab → Tab) : M unit :=
  tab ← read_tab i;
  modify (λ self,
    with_view (with_widgets (<[i := f tab]> (widgets (view self))) (view self))
      self).

(** [self.view.current_tab], possibly [None]. *)
Definition current_tab : M (option nat) :=
  self ← get; mret (current (view self)).

(** A method call on the value of [self.view.current_tab]: raises
    [AttributeError] when that is [None]. *)
Definition update_current (tab : option nat) (f : Tab → Tab) : M unit :=
  match tab with
  | Some i => update_tab i f
  | None => raise AttributeError
  end.

Definition modify_view (f : View → View) : M unit :=
  modify (λ self, with_view (f (view self)) self).

Definition modify_editor (f : Editor → Editor) : M unit :=
  modify (λ self, with_editor (f (editor self)) self).

Definition set_read_only (b : bool) : M unit := modify_view (with_read_only b).
Definition remove_python_runner : M unit :=
  modify_view (with_python_runner false).
Definition remove_debug_inspector : M unit :=
  modify_view (with_debug_inspector false).

(** [self.view.button_bar.slots[name].setEnabled(b)]: a dictionary lookup,
    [KeyError] when the bar has no such button. *)
Definition setEnabled (name : string) (b : bool) : M unit :=
  self ← get;
  match slots (view self) !! name with
  | Some _ => modify_view (λ v, with_slots (<[name := b]> (slots v)) v)
  | None => raise KeyError
  end.

Definition show_status_message (msg : string) : M unit :=
  modify_editor (λ e, mkEditor (mode e) (status_messages e ++ [msg])).

(** [self.editor.change_mode(m)] and the assignment [self.editor.mode = m]
    both leave the editor in mode [m]. *)
Definition change_mode (m : string) : M unit :=
  modify_editor (λ e, mkEditor m (status_messages e)).
Definition set_mode (m : string) : M unit :=
  modify_editor (λ e, mkEditor m (status_messages e)).

Definition kill (r : Runner) : Runner := mkRunner false.

(** ** The methods of [DebugMode] *)

(** The names of [actions()], in order. *)
Definition actions : list string :=
  ["stop"; "run"; "step-over"; "step-in"; "step-out"].

Definition stop : M unit :=
  self ← get;
  match runner self with
  | Some r =>
      modify (with_runner (Some (kill r)));;
      modify (with_runner None);;
      modify (with_debugger None);;
      remove_python_runner;;
      remove_debug_inspector
  | None => mret tt
  end;;
  change_mode "python";;
  set_mode "python";;
  set_read_only false.

(** The body of the loop over the tabs in [finished]: [hasattr(self.debugger,
    'bp_index')] holds exactly when there is a debugger client. *)
Definition finished_tab (dbg : option Debugger) (tab : Tab) : Tab :=
  let tab := markerDeleteAll tab in
  let tab := set_breakpoint_lines ∅ tab in
  let tab := setSelection 0 0 0 0 tab in
  match dbg with
  | Some d =>
      foldl (λ tab item,
               let '(line, breakpoint) := item in
               if bp_enabled breakpoint
               then breakpoint_lines_add (line - 1) (markerAdd (line - 1) tab)
               else tab)
        tab (map_to_list (Client.breakpoints d (path tab)))
  | None => tab
  end.

Definition finished (code status : Z) : M unit :=
  for_each actions (λ name,
    if bool_decide (name ≠ "stop") then setEnabled name false else mret tt);;
  show_status_message "Your script has finished running.";;
  self ← get;
  modify_view (with_widgets (finished_tab (debugger self) <$> widgets (view self))).

Definition button_stop : M unit := stop.

Definition toggle_breakpoint (line : Z) (tab : nat) : M unit :=
  d ← the_debugger;
  t ← read_tab tab;
  let bps := Client.breakpoints d (path t) in
  if markersAtLine line t then
    match bps !! (line + 1)%Z with
    | Some bp =>
        call_debugger (Client.disable_breakpoint bp);;
        update_tab tab (markerDelete line)
    | None => raise KeyError
    end
  else
    let breakpoint := bps !! (line + 1)%Z in
    update_tab tab (markerAdd line);;
    match breakpoint with
    | Some bp => call_debugger (Client.enable_breakpoint bp)
    | None => call_debugger (Client.create_breakpoint (path t) (line + 1))
    end.

Definition debug_on_bootstrap : M unit :=
  self ← get;
  for_each (widgets (view self)) (λ tab,
    for_each (elements (breakpoint_lines tab)) (λ line,
      call_debugger (Client.create_breakpoint (path tab) (line + 1))));;
  call_debugger Client.do_run.

Definition debug_on_breakpoint_enable (breakpoint : Breakpoint) : M unit :=
  tab ← current_tab;
  update_current tab (markerAdd (bp_line breakpoint - 1)).

Definition debug_on_breakpoint_disable (breakpoint : Breakpoint) : M unit :=
  tab ← current_tab;
  update_current tab (markerDelete (bp_line breakpoint - 1)).

Definition debug_on_line (file : string) (line : Z) : M unit :=
  tab ← current_tab;
  update_current tab (setSelection (line - 1) 0 line 0).

(** Running one method after another; an exception ends the run. *)
Definition toggle_twice (line : Z) (tab : nat) : M unit :=
  toggle_breakpoint line tab;; toggle_breakpoint line tab.

(** ** Sample states *)

Definition a_py : filename := Some "a.py".
Definition b_py : filename := Some "b.py".

Definition blank_tab (p : filename) : Tab := mkTab p ∅ ∅ (0, 0, 0, 0)%Z.

Definition all_enabled : gmap string bool :=
  list_to_map ((λ name, (name, true)) <$> actions).

Definition sample_view (ws : list Tab) (cur : option nat) : View :=
  mkView ws cur true true true all_enabled.

(** A session on [a.py] with an empty store, as [start()] leaves it. *)
Definition session (ws : list Tab) (cur : option nat) : DebugMode :=
  mkDebugMode (Some (mkRunner true)) (Some (mkDebugger ∅ []))
    (sample_view ws cur) (mkEditor "debugger" []).

(** * Properties *)

(** ** Running the monad *)

Lemma bind_done {A B} (m : M A) (k : A → M B) self a self' :
  m self = Done a self' → (m ≫= k) self = k a self'.
Proof. intros H. unfold mbind, M_bind, bind. by rewrite H. Qed.

Lemma bind_raise {A B} (m : M A) (k : A → M B) self e self' :
  m self = Raise e self' → (m ≫= k) self = Raise e self'.
Proof. intros H. unfold mbind, M_bind, bind. by rewrite H. Qed.

Ltac unfold_M :=
  unfold mbind, mret, M_bind, M_ret, bind, ret, get, modify, raise in *.

(** The state in which tab [i] has become [t]. *)
Definition put_tab (i : nat) (t : Tab) (self : DebugMode) : DebugMode :=
  with_view (with_widgets (<[i := t]> (widgets (view self))) (view self)) self.

Lemma the_debugger_some self d :
  debugger self = Some d → the_debugger self = Done d self.
Proof. intros H. unfold the_debugger. unfold_M. by rewrite H. Qed.

Lemma the_debugger_none self :
  debugger self = None → the_debugger self = Raise AttributeError self.
Proof. intros H. unfold the_debugger. unfold_M. by rewrite H. Qed.

Lemma call_debugger_some f self d :
  debugger self = Some d →
  call_debugger f self = Done tt (with_debugger (Some (f d)) self).
Proof.
  intros H. unfold call_debugger.
  by rewrite (bind_done _ _ _ _ _ (the_debugger_some _ _ H)).
Qed.

Lemma call_debugger_none f self :
  debugger self = None → call_debugger f self = Raise AttributeError self.
Proof.
  intros H. unfold call_debugger.
  by rewrite (bind_raise _ _ _ _ _ (the_debugger_none _ H)).
Qed.

Lemma read_tab_some i self t :
  tab_at i self = Some t → read_tab i self = Done t self.
Proof. intros H. unfold read_tab. unfold_M. by rewrite H. Qed.

Lemma update_tab_some i f self t :
  tab_at i self = Some t → update_tab i f self = Done tt (put_tab i (f t) self).
Proof.
  intros H. unfold update_tab.
  by rewrite (bind_done _ _ _ _ _ (read_tab_some _ _ _ H)).
Qed.

Lemma update_tab_none i f self :
  tab_at i self = None → update_tab i f self = Raise RuntimeError self.
Proof. intros H. unfold update_tab, read_tab. unfold_M. by rewrite H. Qed.

(** ** Frame facts about the state updates *)

Lemma tab_at_put_tab i t self :
  is_Some (tab_at i self) → tab_at i (put_tab i t self) = Some t.
Proof.
  intros [t0 H]. unfold tab_at, put_tab in *. cbn.
  apply list_lookup_insert_eq. by eapply lookup_lt_Some.
Qed.

Lemma tab_at_put_tab_ne i j t self :
  i ≠ j → tab_at j (put_tab i t self) = tab_at j self.
Proof. intros H. unfold tab_at, put_tab. cbn. by apply list_lookup_insert_ne. Qed.

Lemma tab_at_with_debugger i d self :
  tab_at i (with_debugger d self) = tab_at i self.
Proof. done. Qed.

Lemma put_tab_put_tab i t t' self :
  put_tab i t' (put_tab i t self) = put_tab i t' self.
Proof.
  unfold put_tab, with_view, with_widgets. cbn. by rewrite list_insert_insert_eq.
Qed.

Lemma put_tab_same i t self : tab_at i self = Some t → put_tab i t self = self.
Proof.
  intros H. unfold put_tab, with_view, with_widgets, tab_at in *.
  rewrite list_insert_id by done. by destruct self as [? ? [] ?].
Qed.

Lemma put_tab_with_debugger i t d self :
  put_tab i t (with_debugger d self) = with_debugger d (put_tab i t self).
Proof. done. Qed.

Lemma markersAtLine_true line t : markersAtLine line t = true ↔ line ∈ markers t.
Proof. unfold markersAtLine. apply bool_decide_eq_true. Qed.

Lemma markersAtLine_false line t :
  markersAtLine line t = false ↔ line ∉ markers t.
Proof. unfold markersAtLine. apply bool_decide_eq_false. Qed.

Lemma tab_eq (t t' : Tab) :
  path t = path t' → markers t = markers t' →
  breakpoint_lines t = breakpoint_lines t' → selection t = selection t' →
  t = t'.
Proof. destruct t, t'. cbn. by intros -> -> -> ->. Qed.

Lemma markerAdd_markerDelete line t :
  line ∈ markers t → markerAdd line (markerDelete line t) = t.
Proof.
  intros H. apply tab_eq; try done. cbn.
  apply set_eq. intros x. destruct (decide (x = line)); set_solver.
Qed.

Lemma markerDelete_markerAdd line t :
  line ∉ markers t → markerDelete line (markerAdd line t) = t.
Proof. intros H. apply tab_eq; try done. cbn. set_solver. Qed.

Lemma markerAdd_present line t : line ∈ markers t → markerAdd line t = t.
Proof. intros H. apply tab_eq; try done. cbn. set_solver. Qed.

Lemma markerDelete_absent line t : line ∉ markers t → markerDelete line t = t.
Proof. intros H. apply tab_eq; try done. cbn. set_solver. Qed.

(** ** The three ways through [toggle_breakpoint] *)

Section Toggle.
Context (self : DebugMode) (d : Debugger) (tab : nat) (t : Tab) (line : Z).
Hypothesis Hd : debugger self = Some d.
Hypothesis Ht : tab_at tab self = Some t.

Lemma toggle_off bp :
  line ∈ markers t →
  Client.breakpoints d (path t) !! (line + 1)%Z = Some bp →
  toggle_breakpoint line tab self =
    Done tt (put_tab tab (markerDelete line t)
               (with_debugger (Some (Client.disable_breakpoint bp d)) self)).
Proof using Hd Ht.
  intros Hm Hbp. unfold toggle_breakpoint.
  rewrite (bind_done _ _ _ _ _ (the_debugger_some _ _ Hd)).
  rewrite (bind_done _ _ _ _ _ (read_tab_some _ _ _ Ht)).
  rewrite (proj2 (markersAtLine_true _ _) Hm), Hbp.
  rewrite (bind_done _ _ _ _ _ (call_debugger_some _ _ _ Hd)).
  by apply update_tab_some.
Qed.

Lemma toggle_off_missing :
  line ∈ markers t →
  Client.breakpoints d (path t) !! (line + 1)%Z = None →
  toggle_breakpoint line tab self = Raise KeyError self.
Proof using Hd Ht.
  intros Hm Hbp. unfold toggle_breakpoint.
  rewrite (bind_done _ _ _ _ _ (the_debugger_some _ _ Hd)).
  rewrite (bind_done _ _ _ _ _ (read_tab_some _ _ _ Ht)).
  by rewrite (proj2 (markersAtLine_true _ _) Hm), Hbp.
Qed.

Lemma toggle_on_existing bp :
  line ∉ markers t →
  Client.breakpoints d (path t) !! (line + 1)%Z = Some bp →
  toggle_breakpoint line tab self =
    Done tt (with_debugger (Some (Client.enable_breakpoint bp d))
               (put_tab tab (markerAdd line t) self)).
Proof using Hd Ht.
  intros Hm Hbp. unfold toggle_breakpoint.
  rewrite (bind_done _ _ _ _ _ (the_debugger_some _ _ Hd)).
  rewrite (bind_done _ _ _ _ _ (read_tab_some _ _ _ Ht)).
  rewrite (proj2 (markersAtLine_false _ _) Hm), Hbp.
  rewrite (bind_done _ _ _ _ _ (update_tab_some _ _ _ _ Ht)).
  by apply call_debugger_some.
Qed.

Lemma toggle_on_fresh :
  line ∉ markers t →
  Client.breakpoints d (path t) !! (line + 1)%Z = None →
  toggle_breakpoint line tab self =
    Done tt (with_debugger
               (Some (Client.create_breakpoint (path t) (line + 1) d))
               (put_tab tab (markerAdd line t) self)).
Proof using Hd Ht.
  intros Hm Hbp. unfold toggle_breakpoint.
  rewrite (bind_done _ _ _ _ _ (the_debugger_some _ _ Hd)).
  rewrite (bind_done _ _ _ _ _ (read_tab_some _ _ _ Ht)).
  rewrite (proj2 (markersAtLine_false _ _) Hm), Hbp.
  rewrite (bind_done _ _ _ _ _ (update_tab_some _ _ _ _ Ht)).
  by apply call_debugger_some.
Qed.
End Toggle.

(** ** The store under the client's operations *)

Lemma breakpoints_lookup d file line bp :
  Client.breakpoints d file !! line = Some bp ↔
  ∃ m, bp_index d !! file = Some m ∧ m !! line = Some bp.
Proof.
  unfold Client.breakpoints. destruct (bp_index d !! file) as [m|]; cbn.
  - split; [eauto | by intros (? & [= <-] & ?)].
  - rewrite lookup_empty. split; [done | by intros (? & ? & ?)].
Qed.

Lemma breakpoints_flip b bp d file :
  Client.breakpoints (Client.flip b bp d) file =
    if decide (bp_file bp = file)
    then alter (set_enabled b) (bp_line bp) (Client.breakpoints d file)
    else Client.breakpoints d file.
Proof.
  unfold Client.breakpoints, Client.flip. cbn.
  rewrite lookup_alter. case_decide as Hf; [subst file|done].
  destruct (bp_index d !! bp_file bp); cbn; [done|].
  apply map_eq. intros i. rewrite lookup_alter, lookup_empty. by case_decide.
Qed.

Lemma breakpoints_send r d file :
  Client.breakpoints (Client.send r d) file = Client.breakpoints d file.
Proof. done. Qed.

Lemma breakpoints_create file line d file' :
  Client.breakpoints (Client.create_breakpoint file line d) file' =
    if decide (file = file')
    then <[line := match Client.breakpoints d file !! line with
                   | Some existing => set_enabled true existing
                   | None => mkBreakpoint file line true 0
                   end]> (Client.breakpoints d file)
    else Client.breakpoints d file'.
Proof.
  unfold Client.create_breakpoint. rewrite breakpoints_send.
  unfold Client.breakpoints at 1. cbn. rewrite lookup_insert.
  by case_decide.
Qed.

(** Flipping a stored record away and back leaves the whole store as it was. *)
Lemma flip_back d bp b :
  Client.breakpoints d (bp_file bp) !! bp_line bp = Some bp →
  bp_index (Client.flip (bp_enabled bp) (set_enabled b bp) (Client.flip b bp d))
  = bp_index d.
Proof.
  intros Hbp. apply breakpoints_lookup in Hbp as (m & Hm & Hl).
  unfold Client.flip. cbn. rewrite alter_alter_eq.
  apply alter_id. intros m' Hm'. cbn. rewrite alter_alter_eq.
  apply alter_id. intros x Hx. cbn.
  assert (x = bp) as -> by congruence. by destruct bp.
Qed.

(** The client's operations never drop a record. *)
Lemma flip_keeps_record b bp d file line :
  is_Some (Client.breakpoints d file !! line) →
  is_Some (Client.breakpoints (Client.flip b bp d) file !! line).
Proof.
  intros [x Hx]. rewrite breakpoints_flip. case_decide; [|eauto].
  rewrite lookup_alter. case_decide; [subst line|]; rewrite Hx; cbn; eauto.
Qed.

Lemma create_keeps_record file' line' d file line :
  is_Some (Client.breakpoints d file !! line) →
  is_Some (Client.breakpoints (Client.create_breakpoint file' line' d) file
           !! line).
Proof.
  intros [x Hx]. rewrite breakpoints_create. case_decide; [subst|eauto].
  rewrite lookup_insert. case_decide; [eauto | rewrite Hx; eauto].
Qed.

(** The store stays well keyed. *)
Lemma flip_well_keyed b bp d :
  Client.well_keyed d → Client.well_keyed (Client.flip b bp d).
Proof.
  intros Hwk file line x. rewrite breakpoints_flip. case_decide; [|apply Hwk].
  rewrite lookup_alter. case_decide; [|apply Hwk].
  destruct (Client.breakpoints d file !! bp_line bp) as [y|] eqn:Hy; [|done].
  cbn. intros [= <-]. subst line. cbn. by apply Hwk.
Qed.

Lemma create_well_keyed file line d :
  Client.well_keyed d → Client.well_keyed (Client.create_breakpoint file line d).
Proof.
  intros Hwk file' line' x. rewrite breakpoints_create.
  case_decide; [subst file'|apply Hwk].
  rewrite lookup_insert. case_decide; [subst line'|apply Hwk].
  destruct (Client.breakpoints d file !! line) as [y|] eqn:Hy.
  - intros [= <-]. cbn. by apply Hwk.
  - by intros [= <-].
Qed.

(** ** Toggling twice *)

(** C1, at a line without a breakpoint: after two toggles the store holds a
    (disabled) record where it held none, so the store has not returned to its
    value before the first toggle. *)
Lemma toggle_twice_leaves_record :
  ∃ self2,
    toggle_twice 4 0 (session [blank_tab a_py] (Some 0)) = Done tt self2 ∧
    (bp_index <$> debugger self2)
      ≠ (bp_index <$> debugger (session [blank_tab a_py] (Some 0))).
Proof.
  eexists. split; [vm_compute; reflexivity|].
  intros H.
  apply (f_equal (λ o : option (gmap (option string) (gmap Z Breakpoint)),
                    idx ← o; m ← idx !! a_py; m !! 5%Z)) in H.
  vm_compute in H. discriminate H.
Qed.

Lemma undo_off_on i t t1 d1 d2 self :
  tab_at i self = Some t →
  with_debugger d2 (put_tab i t (put_tab i t1 (with_debugger d1 self)))
  = with_debugger d2 self.
Proof.
  intros H. rewrite put_tab_put_tab, put_tab_with_debugger.
  by rewrite (put_tab_same _ _ _ H).
Qed.

Lemma undo_on_off i t t1 d1 d2 self :
  tab_at i self = Some t →
  put_tab i t (with_debugger d2 (with_debugger d1 (put_tab i t1 self)))
  = with_debugger d2 self.
Proof.
  intros H. rewrite !put_tab_with_debugger, put_tab_put_tab.
  by rewrite (put_tab_same _ _ _ H).
Qed.

(** C1 (amended): wherever a shown marker has its record, two toggles in
    succession succeed and put the view, markers included, back as it was.
    The store is back as it was when the line already had a record that sits
    under its own file and line and is enabled exactly when the marker is
    shown; when the line had no record, the store ends with the record the
    first toggle created, disabled by the second. *)
Theorem toggle_twice_restores self d tab t line :
  debugger self = Some d →
  tab_at tab self = Some t →
  (line ∈ markers t → is_Some (Client.breakpoints d (path t) !! (line + 1)%Z)) →
  ∃ d2,
    toggle_twice line tab self = Done tt (with_debugger (Some d2) self) ∧
    (∀ bp, Client.breakpoints d (path t) !! (line + 1)%Z = Some bp →
           bp_file bp = path t → bp_line bp = (line + 1)%Z →
           (line ∈ markers t ↔ bp_enabled bp = true) →
           bp_index d2 = bp_index d) ∧
    (Client.breakpoints d (path t) !! (line + 1)%Z = None →
     bp_index d2 =
       <[path t := <[(line + 1)%Z :=
                       mkBreakpoint (path t) (line + 1) false 0]>
                     (Client.breakpoints d (path t))]> (bp_index d)).
Proof.
  intros Hd Ht Hrec. unfold toggle_twice.
  destruct (decide (line ∈ markers t)) as [Hm|Hm].
  - (* off, then on again *)
    destruct (Hrec Hm) as [bp Hbp].
    set (d1 := Client.disable_breakpoint bp d).
    assert (is_Some (Client.breakpoints d1 (path t) !! (line + 1)%Z))
      as [bp1 Hbp1].
    { unfold d1, Client.disable_breakpoint. rewrite breakpoints_send.
      apply flip_keeps_record. eauto. }
    exists (Client.enable_breakpoint bp1 d1).
    split; [|split].
    + rewrite (bind_done _ _ _ _ _ (toggle_off _ _ _ _ _ Hd Ht bp Hm Hbp)).
      rewrite (toggle_on_existing _ d1 tab (markerDelete line t) line) with (bp := bp1);
        [| done | apply tab_at_put_tab; rewrite tab_at_with_debugger; eauto
         | cbn; set_solver | done ].
      by rewrite markerAdd_markerDelete, undo_off_on.
    + intros bp' Hbp' Hf Hl Hen. assert (bp' = bp) as -> by congruence.
      assert (bp1 = set_enabled false bp) as ->.
      { unfold d1, Client.disable_breakpoint in Hbp1.
        rewrite breakpoints_send, breakpoints_flip, decide_True in Hbp1 by done.
        rewrite Hl, lookup_alter, decide_True, Hbp in Hbp1 by done.
        by injection Hbp1. }
      cbn. rewrite <- (proj1 Hen Hm). apply flip_back. by rewrite Hf, Hl.
    + intros Hnone. congruence.
  - destruct (Client.breakpoints d (path t) !! (line + 1)%Z) as [bp|] eqn:Hbp.
    + (* on with the record at hand, then off *)
      set (d1 := Client.enable_breakpoint bp d).
      assert (is_Some (Client.breakpoints d1 (path t) !! (line + 1)%Z))
        as [bp1 Hbp1].
      { unfold d1, Client.enable_breakpoint. rewrite breakpoints_send.
        apply flip_keeps_record. eauto. }
      exists (Client.disable_breakpoint bp1 d1).
      split; [|split].
      * rewrite (bind_done _ _ _ _ _
                   (toggle_on_existing _ _ _ _ _ Hd Ht bp Hm Hbp)).
        rewrite (toggle_off _ d1 tab (markerAdd line t) line) with (bp := bp1);
          [| done | rewrite tab_at_with_debugger; apply tab_at_put_tab; eauto
           | cbn; set_solver | done ].
        by rewrite markerDelete_markerAdd, undo_on_off.
      * intros bp' [= <-] Hf Hl Hen.
        assert (bp1 = set_enabled true bp) as ->.
        { unfold d1, Client.enable_breakpoint in Hbp1.
          rewrite breakpoints_send, breakpoints_flip, decide_True in Hbp1 by done.
          rewrite Hl, lookup_alter, decide_True, Hbp in Hbp1 by done.
          by injection Hbp1. }
        assert (bp_enabled bp = false) as Hoff.
        { destruct (bp_enabled bp); [|done]. by destruct Hm; apply Hen. }
        cbn. rewrite <- Hoff. apply flip_back. by rewrite Hf, Hl.
      * done.
    + (* on with a fresh record, then off *)
      set (d1 := Client.create_breakpoint (path t) (line + 1) d).
      set (bp1 := mkBreakpoint (path t) (line + 1) true 0).
      assert (Client.breakpoints d1 (path t) !! (line + 1)%Z = Some bp1)
        as Hbp1.
      { unfold d1. rewrite breakpoints_create, decide_True by done.
        by rewrite Hbp, lookup_insert_eq. }
      exists (Client.disable_breakpoint bp1 d1).
      split; [|split].
      * rewrite (bind_done _ _ _ _ _ (toggle_on_fresh _ _ _ _ _ Hd Ht Hm Hbp)).
        rewrite (toggle_off _ d1 tab (markerAdd line t) line) with (bp := bp1);
          [| done | rewrite tab_at_with_debugger; apply tab_at_put_tab; eauto
           | cbn; set_solver | done ].
        by rewrite markerDelete_markerAdd, undo_on_off.
      * done.
      * intros _. unfold d1, Client.create_breakpoint. cbn.
        by rewrite Hbp, alter_insert_eq, alter_insert_eq.
Qed.

(** A session on [a.py] whose line 5 (1-based) has an enabled breakpoint and
    its marker at line 4 (0-based). *)
Definition marked_tab : Tab := markerAdd 4 (blank_tab a_py).

Definition one_breakpoint : Debugger :=
  Client.create_breakpoint a_py 5 (mkDebugger ∅ []).

Definition marked_session : DebugMode :=
  mkDebugMode (Some (mkRunner true)) (Some one_breakpoint)
    (sample_view [marked_tab] (Some 0)) (mkEditor "debugger" []).

(** The same view over a store that has no record yet. *)
Definition marker_without_record : DebugMode :=
  session [marked_tab] (Some 0).

Lemma toggle_twice_restores_witness :
  ∃ d2,
    toggle_twice 4 0 marked_session
      = Done tt (with_debugger (Some d2) marked_session) ∧
    bp_index d2 = bp_index one_breakpoint.
Proof.
  destruct (toggle_twice_restores marked_session one_breakpoint 0 marked_tab 4)
    as (d2 & Hrun & Hstore & _).
  - reflexivity.
  - reflexivity.
  - intros _. eexists. vm_compute. reflexivity.
  - exists d2. split; [exact Hrun|].
    apply (Hstore (mkBreakpoint a_py 5 true 0)).
    + vm_compute. reflexivity.
    + reflexivity.
    + reflexivity.
    + split; [reflexivity|]. intros _. unfold marked_tab. cbn. set_solver.
Defined.

(** ** The unguarded lookup of the toggle-off branch *)

(** C10: with a marker shown at 0-based line [line], toggling indexes the
    file's breakpoint map at [line + 1] without a guard.  If the record is
    there it is disabled and the marker removed; if it is not, the call raises
    [KeyError] and nothing has been disabled or removed: the state is the one
    the call started in. *)
Theorem toggle_off_needs_record self d tab t line :
  debugger self = Some d →
  tab_at tab self = Some t →
  line ∈ markers t →
  (∀ bp,
     Client.breakpoints d (path t) !! (line + 1)%Z = Some bp →
     toggle_breakpoint line tab self =
       Done tt (put_tab tab (markerDelete line t)
                  (with_debugger (Some (Client.disable_breakpoint bp d)) self)))
  ∧ (Client.breakpoints d (path t) !! (line + 1)%Z = None →
     toggle_breakpoint line tab self = Raise KeyError self).
Proof.
  intros Hd Ht Hm. split.
  - intros bp Hbp. by eapply toggle_off.
  - intros Hbp. by eapply toggle_off_missing.
Qed.

Lemma toggle_off_needs_record_witness :
  toggle_breakpoint 4 0 marker_without_record
    = Raise KeyError marker_without_record.
Proof.
  apply (toggle_off_needs_record marker_without_record (mkDebugger ∅ []) 0
           marked_tab 4).
  - reflexivity.
  - reflexivity.
  - unfold marked_tab. cbn. set_solver.
  - vm_compute. reflexivity.
Defined.

(** ** One record per line *)

Fixpoint toggle_many (n : nat) (line : Z) (tab : nat) : M unit :=
  match n with
  | O => mret tt
  | S n' => toggle_breakpoint line tab;; toggle_many n' line tab
  end.

(** The number of creation requests among the requests [sent]. *)
Definition creations (sent : list Request) : nat :=
  length (List.filter is_create sent).

Lemma outbox_send r d : outbox (Client.send r d) = outbox d ++ [r].
Proof. done. Qed.

(** One toggle, whichever way it goes: it sends one request, a creation only
    if the line had no record, and afterwards the line has a record. *)
Lemma toggle_step self d tab t line :
  debugger self = Some d →
  tab_at tab self = Some t →
  (line ∈ markers t → is_Some (Client.breakpoints d (path t) !! (line + 1)%Z)) →
  ∃ self1 d1 t1 r,
    toggle_breakpoint line tab self = Done tt self1 ∧
    debugger self1 = Some d1 ∧
    tab_at tab self1 = Some t1 ∧
    path t1 = path t ∧
    outbox d1 = outbox d ++ [r] ∧
    (is_create r = true →
     Client.breakpoints d (path t) !! (line + 1)%Z = None) ∧
    is_Some (Client.breakpoints d1 (path t) !! (line + 1)%Z).
Proof.
  intros Hd Ht Hrec.
  destruct (decide (line ∈ markers t)) as [Hm|Hm].
  - destruct (Hrec Hm) as [bp Hbp].
    eexists _, _, _, (Req_disable bp).
    split; [by eapply toggle_off|]. cbn.
    split; [done|]. split; [apply tab_at_put_tab; eauto|].
    repeat split; [done|].
    unfold Client.disable_breakpoint. rewrite breakpoints_send.
    apply flip_keeps_record. eauto.
  - destruct (Client.breakpoints d (path t) !! (line + 1)%Z) as [bp|] eqn:Hbp.
    + eexists _, _, _, (Req_enable bp).
      split; [by eapply toggle_on_existing|]. cbn.
      split; [done|]. split; [apply tab_at_put_tab; eauto|].
      repeat split; [done|].
      unfold Client.enable_breakpoint. rewrite breakpoints_send.
      apply flip_keeps_record. rewrite Hbp. eauto.
    + eexists _, _, _, (Req_create (path t) (line + 1)).
      split; [by eapply toggle_on_fresh|]. cbn.
      split; [done|]. split; [apply tab_at_put_tab; eauto|].
      repeat split.
      rewrite breakpoints_create, decide_True, lookup_insert_eq by done. eauto.
Qed.

Lemma creations_app l1 l2 : creations (l1 ++ l2) = creations l1 + creations l2.
Proof. unfold creations. by rewrite List.filter_app, length_app. Qed.

(** Any number of toggles at one line: they all succeed, and among the
    requests they send there is at most one creation, and none at all when
    the line had its record from the start. *)
Lemma toggle_many_creations n : ∀ self d tab t line,
  debugger self = Some d →
  tab_at tab self = Some t →
  (line ∈ markers t → is_Some (Client.breakpoints d (path t) !! (line + 1)%Z)) →
  ∃ self' d' sent,
    toggle_many n line tab self = Done tt self' ∧
    debugger self' = Some d' ∧
    outbox d' = outbox d ++ sent ∧
    creations sent ≤ 1 ∧
    (is_Some (Client.breakpoints d (path t) !! (line + 1)%Z) →
     creations sent = 0).
Proof.
  induction n as [|n IH]; intros self d tab t line Hd Ht Hrec.
  - exists self, d, []. cbn. rewrite app_nil_r. repeat split; auto.
  - destruct (toggle_step self d tab t line Hd Ht Hrec)
      as (self1 & d1 & t1 & r & Hrun & Hd1 & Ht1 & Hp & Hout & Hcr & Hsome).
    rewrite <- Hp in Hsome.
    destruct (IH self1 d1 tab t1 line Hd1 Ht1 (λ _, Hsome))
      as (self' & d' & sent & Hrun' & Hd' & Hout' & _ & Hzero).
    exists self', d', (r :: sent). cbn [toggle_many].
    rewrite (bind_done _ _ _ _ _ Hrun).
    split; [done|]. split; [done|].
    split; [by rewrite Hout', Hout, <- app_assoc|].
    specialize (Hzero Hsome).
    change (r :: sent) with ([r] ++ sent). rewrite creations_app, Hzero.
    unfold creations. cbn. destruct (is_create r) eqn:Hr; cbn.
    + split; [lia|]. intros [bp Hbp]. rewrite (Hcr eq_refl) in Hbp. done.
    + split; [lia|done].
Qed.

(** C4: the store keeps a file's records in a map from line to record, so a
    line has at most one; what the mode adds is that it never asks for a
    second one.  However often a line is toggled, at most one creation request
    goes out, and none when the line already had its record; toggling on at a
    line whose record exists sends an enable request for that very record and
    turns its flag on in place, the file's set of recorded lines staying the
    same. *)
Theorem toggle_on_reuses_record self d tab t line :
  debugger self = Some d →
  tab_at tab self = Some t →
  (line ∈ markers t → is_Some (Client.breakpoints d (path t) !! (line + 1)%Z)) →
  (∀ n, ∃ self' d' sent,
     toggle_many n line tab self = Done tt self' ∧
     debugger self' = Some d' ∧
     outbox d' = outbox d ++ sent ∧
     creations sent ≤ 1 ∧
     (is_Some (Client.breakpoints d (path t) !! (line + 1)%Z) →
      creations sent = 0))
  ∧ (∀ bp,
       line ∉ markers t →
       Client.breakpoints d (path t) !! (line + 1)%Z = Some bp →
       bp_file bp = path t → bp_line bp = (line + 1)%Z →
       ∃ d1,
         toggle_breakpoint line tab self =
           Done tt (with_debugger (Some d1)
                      (put_tab tab (markerAdd line t) self)) ∧
         outbox d1 = outbox d ++ [Req_enable bp] ∧
         Client.breakpoints d1 (path t) !! (line + 1)%Z
           = Some (set_enabled true bp) ∧
         ∀ file, dom (Client.breakpoints d1 file)
                 = dom (Client.breakpoints d file)).
Proof.
  intros Hd Ht Hrec. split.
  - intros n. by eapply toggle_many_creations.
  - intros bp Hm Hbp Hf Hl.
    exists (Client.enable_breakpoint bp d).
    split; [by eapply toggle_on_existing|].
    split; [done|].
    unfold Client.enable_breakpoint. split.
    + rewrite breakpoints_send, breakpoints_flip, decide_True by done.
      by rewrite Hl, lookup_alter, decide_True, Hbp by done.
    + intros file. rewrite breakpoints_send, breakpoints_flip.
      case_decide; [|done]. apply dom_alter_L.
Qed.

(** A session whose breakpoint at line 5 of [a.py] has been disabled: the
    record is kept, the marker is gone. *)
Definition disabled_breakpoint : Debugger :=
  Client.disable_breakpoint (mkBreakpoint a_py 5 true 0) one_breakpoint.

Definition unmarked_session : DebugMode :=
  mkDebugMode (Some (mkRunner true)) (Some disabled_breakpoint)
    (sample_view [blank_tab a_py] (Some 0)) (mkEditor "debugger" []).

Lemma toggle_on_reuses_record_witness :
  (∃ self' d' sent,
     toggle_many 3 4 0 unmarked_session = Done tt self' ∧
     debugger self' = Some d' ∧
     outbox d' = outbox disabled_breakpoint ++ sent ∧
     creations sent = 0)
  ∧ (∃ d1,
       toggle_breakpoint 4 0 unmarked_session =
         Done tt (with_debugger (Some d1)
                    (put_tab 0 (markerAdd 4 (blank_tab a_py)) unmarked_session)) ∧
       outbox d1 = outbox disabled_breakpoint
                     ++ [Req_enable (mkBreakpoint a_py 5 false 0)] ∧
       Client.breakpoints d1 a_py !! 5%Z = Some (mkBreakpoint a_py 5 true 0)).
Proof.
  destruct (toggle_on_reuses_record unmarked_session disabled_breakpoint 0
              (blank_tab a_py) 4) as [Hmany Hone].
  - reflexivity.
  - reflexivity.
  - intros _. eexists. vm_compute. reflexivity.
  - split.
    + destruct (Hmany 3) as (self' & d' & sent & Hrun & Hd' & Hout & _ & Hzero).
      exists self', d', sent. repeat split; try done.
      apply Hzero. eexists. vm_compute. reflexivity.
    + destruct (Hone (mkBreakpoint a_py 5 false 0)) as (d1 & Hrun & Hout & Hbp & _).
      * cbn. set_solver.
      * vm_compute. reflexivity.
      * reflexivity.
      * reflexivity.
      * exists d1. by repeat split.
Defined.

(** ** The inbound handlers *)

Lemma update_current_some f self i t :
  current (view self) = Some i →
  tab_at i self = Some t →
  (current_tab ≫= λ tab, update_current tab f) self
    = Done tt (put_tab i (f t) self).
Proof.
  intros Hc Ht. unfold current_tab. unfold_M. rewrite Hc. cbn.
  by apply update_tab_some.
Qed.

Lemma update_current_none f self :
  current (view self) = None →
  (current_tab ≫= λ tab, update_current tab f) self
    = Raise AttributeError self.
Proof. intros Hc. unfold current_tab. unfold_M. by rewrite Hc. Qed.

Lemma enable_event bp self i t :
  current (view self) = Some i →
  tab_at i self = Some t →
  debug_on_breakpoint_enable bp self
    = Done tt (put_tab i (markerAdd (bp_line bp - 1) t) self).
Proof. apply update_current_some. Qed.

Lemma disable_event bp self i t :
  current (view self) = Some i →
  tab_at i self = Some t →
  debug_on_breakpoint_disable bp self
    = Done tt (put_tab i (markerDelete (bp_line bp - 1) t) self).
Proof. apply update_current_some. Qed.

Lemma line_event file line self i t :
  current (view self) = Some i →
  tab_at i self = Some t →
  debug_on_line file line self
    = Done tt (put_tab i (setSelection (line - 1) 0 line 0 t) self).
Proof. apply update_current_some. Qed.

(** ** Line coordinates across the boundary *)

(** C3: going out, a toggle at 0-based line [line] sends exactly one request
    and that request addresses 1-based line [line + 1]; coming in, an enable
    or disable event for a breakpoint at 1-based line [line + 1] sets or
    clears the marker at 0-based [line] of the tab shown.  So when the toggled
    tab is the one shown, the event that answers the toggle lands on the
    marker the toggle has just set or cleared, and leaves it as it is. *)
Theorem toggle_event_round_trip self d tab t line :
  debugger self = Some d →
  tab_at tab self = Some t →
  (line ∈ markers t → is_Some (Client.breakpoints d (path t) !! (line + 1)%Z)) →
  (∀ bp, Client.breakpoints d (path t) !! (line + 1)%Z = Some bp →
         bp_line bp = (line + 1)%Z) →
  ∃ self1 d1 r,
    toggle_breakpoint line tab self = Done tt self1 ∧
    debugger self1 = Some d1 ∧
    outbox d1 = outbox d ++ [r] ∧
    request_line r = Some (line + 1)%Z ∧
    (∀ bp i ti,
       bp_line bp = (line + 1)%Z →
       current (view self1) = Some i →
       tab_at i self1 = Some ti →
       debug_on_breakpoint_enable bp self1
         = Done tt (put_tab i (markerAdd line ti) self1) ∧
       debug_on_breakpoint_disable bp self1
         = Done tt (put_tab i (markerDelete line ti) self1)) ∧
    (∀ bp,
       bp_line bp = (line + 1)%Z →
       current (view self) = Some tab →
       if decide (line ∈ markers t)
       then debug_on_breakpoint_disable bp self1 = Done tt self1
       else debug_on_breakpoint_enable bp self1 = Done tt self1).
Proof.
  intros Hd Ht Hrec Hkey.
  assert (∀ self1 bp i ti,
            bp_line bp = (line + 1)%Z →
            current (view self1) = Some i →
            tab_at i self1 = Some ti →
            debug_on_breakpoint_enable bp self1
              = Done tt (put_tab i (markerAdd line ti) self1) ∧
            debug_on_breakpoint_disable bp self1
              = Done tt (put_tab i (markerDelete line ti) self1)) as Hin.
  { intros self1 bp i ti Hl Hc Hti.
    rewrite (enable_event bp self1 i ti Hc Hti).
    rewrite (disable_event bp self1 i ti Hc Hti).
    rewrite Hl. by replace (line + 1 - 1)%Z with line by lia. }
  destruct (decide (line ∈ markers t)) as [Hm|Hm].
  - destruct (Hrec Hm) as [bp0 Hbp0].
    eexists _, _, (Req_disable bp0).
    split; [by eapply toggle_off|].
    split; [done|]. split; [done|].
    split; [cbn; by rewrite (Hkey _ Hbp0)|].
    split; [by apply Hin|].
    intros bp Hl Hc.
    set (self1 := put_tab _ _ _).
    assert (tab_at tab self1 = Some (markerDelete line t)) as Ht1.
    { apply tab_at_put_tab. rewrite tab_at_with_debugger. eauto. }
    destruct (Hin self1 bp tab _ Hl Hc Ht1) as [_ ->].
    rewrite markerDelete_absent by (cbn; set_solver).
    by rewrite put_tab_same.
  - assert (∀ d1, let self1 := with_debugger (Some d1)
                                  (put_tab tab (markerAdd line t) self) in
              ∀ bp, bp_line bp = (line + 1)%Z →
                    current (view self) = Some tab →
                    debug_on_breakpoint_enable bp self1 = Done tt self1)
      as Hback.
    { intros d1 self1 bp Hl Hc.
      assert (tab_at tab self1 = Some (markerAdd line t)) as Ht1.
      { unfold self1. rewrite tab_at_with_debugger.
        apply tab_at_put_tab. eauto. }
      destruct (Hin self1 bp tab _ Hl Hc Ht1) as [-> _].
      rewrite markerAdd_present by (cbn; set_solver).
      by rewrite put_tab_same. }
    destruct (Client.breakpoints d (path t) !! (line + 1)%Z) as [bp0|] eqn:Hbp0.
    + eexists _, _, (Req_enable bp0).
      split; [by eapply toggle_on_existing|].
      split; [done|]. split; [done|].
      split; [cbn; by rewrite (Hkey _ eq_refl)|].
      split; [by apply Hin|]. apply Hback.
    + eexists _, _, (Req_create (path t) (line + 1)).
      split; [by eapply toggle_on_fresh|].
      split; [done|]. split; [done|]. split; [done|].
      split; [by apply Hin|]. apply Hback.
Qed.

Lemma toggle_event_round_trip_witness :
  ∃ self1 d1 r,
    toggle_breakpoint 4 0 marked_session = Done tt self1 ∧
    debugger self1 = Some d1 ∧
    outbox d1 = outbox one_breakpoint ++ [r] ∧
    request_line r = Some 5%Z ∧
    debug_on_breakpoint_disable (mkBreakpoint a_py 5 false 0) self1
      = Done tt self1.
Proof.
  destruct (toggle_event_round_trip marked_session one_breakpoint 0
              marked_tab 4)
    as (self1 & d1 & r & Hrun & Hd1 & Hout & Hline & _ & Hback).
  - reflexivity.
  - reflexivity.
  - intros _. eexists. vm_compute. reflexivity.
  - intros bp Hbp. vm_compute in Hbp. injection Hbp as <-. reflexivity.
  - exists self1, d1, r. repeat split; try assumption.
    specialize (Hback (mkBreakpoint a_py 5 false 0) eq_refl eq_refl).
    destruct (decide (4%Z ∈ markers marked_tab)) as [_|Hno]; [exact Hback|].
    exfalso. apply Hno. unfold marked_tab. cbn. set_solver.
Defined.

(** ** Events carry a file, the handlers look at the tab shown *)

(** Two tabs, [a.py] and [b.py], with [b.py] shown. *)
Definition two_tabs : DebugMode :=
  session [blank_tab a_py; blank_tab b_py] (Some 1).

(** C5, for an event naming a file other than the one shown: [on_line] for
    line 10 of [a.py] moves the selection of the tab showing [b.py]; the tab
    of [a.py] keeps its selection. *)
Lemma on_line_moves_shown_tab :
  ∃ self',
    debug_on_line "a.py" 10 two_tabs = Done tt self' ∧
    tab_at 0 self' = Some (blank_tab a_py) ∧
    tab_at 1 self' = Some (setSelection 9 0 10 0 (blank_tab b_py)).
Proof. eexists. split; [|split]; reflexivity. Qed.

(** C5 (amended): [on_line(file, line)], with 1-based [line], sets the
    selection of the tab currently shown to run from 0-based line [line - 1],
    column 0, to line [line], column 0, whichever file the event names.
    Nothing else changes: the handler touches no runner, debugger, button or
    editor state, so the mode records no change of phase. *)
Theorem debug_on_line_selects_shown_tab file line self i t :
  current (view self) = Some i →
  tab_at i self = Some t →
  ∃ self',
    debug_on_line file line self = Done tt self' ∧
    self' = put_tab i (setSelection (line - 1) 0 line 0 t) self ∧
    tab_at i self' = Some (mkTab (path t) (markers t) (breakpoint_lines t)
                             ((line - 1)%Z, 0%Z, line, 0%Z)) ∧
    (∀ j, j ≠ i → tab_at j self' = tab_at j self) ∧
    runner self' = runner self ∧
    debugger self' = debugger self ∧
    editor self' = editor self ∧
    slots (view self') = slots (view self) ∧
    read_only (view self') = read_only (view self).
Proof.
  intros Hc Ht. eexists. split; [by apply line_event|].
  split; [done|]. split; [apply tab_at_put_tab; eauto|].
  split; [|done]. intros j Hj. by apply tab_at_put_tab_ne.
Qed.

Lemma debug_on_line_selects_shown_tab_witness :
  ∃ self',
    debug_on_line "a.py" 10 marked_session = Done tt self' ∧
    tab_at 0 self' = Some (mkTab a_py {[4%Z]} ∅ (9, 0, 10, 0)%Z).
Proof.
  destruct (debug_on_line_selects_shown_tab "a.py" 10 marked_session 0
              marked_tab) as (self' & Hrun & _ & Htab & _).
  - reflexivity.
  - reflexivity.
  - exists self'. split; [exact Hrun|]. rewrite Htab. reflexivity.
Defined.

(** What a handler may change: only the tab shown. *)
Definition touches_only_shown_tab (handler : M unit) : Prop :=
  ∀ self,
    let self' := match handler self with
                 | Done _ s | Raise _ s => s
                 end in
    (∀ j, current (view self) ≠ Some j → tab_at j self' = tab_at j self) ∧
    current (view self') = current (view self) ∧
    runner self' = runner self ∧
    debugger self' = debugger self ∧
    editor self' = editor self.

Lemma update_current_touches_only_shown_tab f :
  touches_only_shown_tab (current_tab ≫= λ tab, update_current tab f).
Proof.
  intros self. destruct (current (view self)) as [i|] eqn:Hc.
  - destruct (tab_at i self) as [t|] eqn:Ht.
    + rewrite (update_current_some f self i t Hc Ht). cbn.
      repeat split; try done.
      intros j Hj. apply tab_at_put_tab_ne. congruence.
    + unfold current_tab. unfold_M. rewrite Hc. cbn.
      by rewrite (update_tab_none _ _ _ Ht).
  - by rewrite (update_current_none f self Hc).
Qed.

(** C9: the three inbound handlers never look at the file of the event.  Two
    [on_line] events for the same line, or two enable (or disable) events for
    breakpoints that differ only in their file, have the same outcome, and
    that outcome changes at most the tab currently shown. *)
Theorem inbound_handlers_ignore_file :
  (∀ file1 file2 line self,
     debug_on_line file1 line self = debug_on_line file2 line self) ∧
  (∀ file bp self,
     debug_on_breakpoint_enable (set_file file bp) self
       = debug_on_breakpoint_enable bp self) ∧
  (∀ file bp self,
     debug_on_breakpoint_disable (set_file file bp) self
       = debug_on_breakpoint_disable bp self) ∧
  (∀ file line, touches_only_shown_tab (debug_on_line file line)) ∧
  (∀ bp, touches_only_shown_tab (debug_on_breakpoint_enable bp)) ∧
  (∀ bp, touches_only_shown_tab (debug_on_breakpoint_disable bp)).
Proof.
  split; [reflexivity|]. split; [reflexivity|]. split; [reflexivity|].
  split; [|split]; intros; apply update_current_touches_only_shown_tab.
Qed.

(** ** Stopping *)

(** The state [stop()] leaves behind. *)
Definition stopped (self : DebugMode) : DebugMode :=
  match runner self with
  | Some _ =>
      mkDebugMode None None
        (mkView (widgets (view self)) (current (view self)) false false false
           (slots (view self)))
        (mkEditor "python" (status_messages (editor self)))
  | None =>
      mkDebugMode None (debugger self)
        (mkView (widgets (view self)) (current (view self)) false
           (python_runner (view self)) (debug_inspector (view self))
           (slots (view self)))
        (mkEditor "python" (status_messages (editor self)))
  end.

Lemma stop_stopped self : stop self = Done tt (stopped self).
Proof.
  unfold stop, stopped. unfold_M.
  destruct self as [[r|] dbg v e]; reflexivity.
Qed.

Lemma stopped_runner self : runner (stopped self) = None.
Proof. unfold stopped. by destruct (runner self). Qed.

Lemma stopped_stopped self : stopped (stopped self) = stopped self.
Proof. unfold stopped. by destruct self as [[r|] dbg v e]. Qed.

(** A mode that has just been entered with no file to debug: no runner, but
    the editor is already in debugger mode.  This is the state in which
    [start()] itself calls [stop()] to back out. *)
Definition entered_without_script : DebugMode :=
  mkDebugMode None None (mkView [] None false false false all_enabled)
    (mkEditor "debugger" []).

(** C7, with no runner present: [stop()] is not a no-op, it takes the editor
    out of debugger mode. *)
Lemma stop_without_runner_changes_mode :
  runner entered_without_script = None ∧
  ∃ self',
    stop entered_without_script = Done tt self' ∧
    mode (editor self') = "python" ∧
    self' ≠ entered_without_script.
Proof.
  split; [reflexivity|]. eexists. split; [apply stop_stopped|].
  split; [reflexivity|]. intros H. apply (f_equal (λ s, mode (editor s))) in H.
  discriminate H.
Qed.

(** C7 (amended): [stop()] always finishes, and a second [stop()] changes
    nothing.  Called with no runner present it leaves the runner, the
    debugger, the tabs, the panes and the buttons alone but still puts the
    editor in ["python"] mode and switches read-only off; it is a no-op
    exactly when the editor is already in ["python"] mode and the view is not
    read-only. *)
Theorem stop_idempotent self :
  ∃ self1,
    stop self = Done tt self1 ∧
    stop self1 = Done tt self1 ∧
    runner self1 = None ∧
    (runner self = None →
     debugger self1 = debugger self ∧
     widgets (view self1) = widgets (view self) ∧
     current (view self1) = current (view self) ∧
     python_runner (view self1) = python_runner (view self) ∧
     debug_inspector (view self1) = debug_inspector (view self) ∧
     slots (view self1) = slots (view self) ∧
     status_messages (editor self1) = status_messages (editor self) ∧
     mode (editor self1) = "python" ∧
     read_only (view self1) = false ∧
     (self1 = self ↔
      mode (editor self) = "python" ∧ read_only (view self) = false)).
Proof.
  exists (stopped self). split; [apply stop_stopped|].
  split; [by rewrite stop_stopped, stopped_stopped|].
  split; [apply stopped_runner|].
  intros Hr. unfold stopped. rewrite Hr. cbn.
  do 9 (split; [done|]). split.
  - by intros <-.
  - intros [Hm Hro]. destruct self as [r dbg [] []]. cbn in *. by subst.
Qed.

Lemma stop_idempotent_witness :
  ∃ self1,
    stop entered_without_script = Done tt self1 ∧
    stop self1 = Done tt self1 ∧
    debugger self1 = debugger entered_without_script ∧
    mode (editor self1) = "python".
Proof.
  destruct (stop_idempotent entered_without_script)
    as (self1 & Hstop & Hagain & _ & Hidle).
  destruct (Hidle eq_refl) as (Hdbg & _ & _ & _ & _ & _ & _ & Hmode & _).
  exists self1. repeat split; assumption.
Defined.

(** ** When the process ends *)

(** The button bar has a button for every action other than ["stop"]. *)
Definition has_buttons (names : list string) (self : DebugMode) : Prop :=
  Forall (λ name, name ≠ "stop" → is_Some (slots (view self) !! name)) names.

Definition disable_buttons (names : list string) (s : gmap string bool)
  : gmap string bool :=
  foldl (λ s name, if bool_decide (name ≠ "stop") then <[name := false]> s else s)
    s names.

Lemma setEnabled_some name b self :
  is_Some (slots (view self) !! name) →
  setEnabled name b self
    = Done tt (with_view (with_slots (<[name := b]> (slots (view self)))
                            (view self)) self).
Proof. intros [x Hx]. unfold setEnabled. unfold_M. by rewrite Hx. Qed.

Lemma disable_loop names : ∀ self,
  has_buttons names self →
  for_each names (λ name,
    if bool_decide (name ≠ "stop") then setEnabled name false else mret tt) self
  = Done tt (with_view (with_slots (disable_buttons names (slots (view self)))
                          (view self)) self).
Proof.
  induction names as [|name names IH]; intros self Hb.
  - cbn. unfold_M. by destruct self as [? ? [] ?].
  - apply Forall_cons in Hb as [Hname Hrest]. cbn [for_each disable_buttons foldl].
    case_bool_decide as Hstop.
    + rewrite (bind_done _ _ _ _ _ (setEnabled_some _ _ _ (Hname Hstop))).
      rewrite IH; [done|].
      eapply Forall_impl; [exact Hrest|]. cbn. intros other Hother Hne.
      rewrite lookup_insert. case_decide; [eauto | by apply Hother].
    + unfold_M. by apply IH.
Qed.

Lemma disable_buttons_actions s :
  disable_buttons actions s =
    <["step-out" := false]>
      (<["step-in" := false]> (<["step-over" := false]> (<["run" := false]> s))).
Proof.
  unfold disable_buttons, actions. cbn [foldl].
  rewrite (bool_decide_false ("stop" ≠ "stop")) by (intros H; by apply H).
  by rewrite !bool_decide_true by done.
Qed.

(** What [finished] leaves behind. *)
Definition after_finished (self : DebugMode) : DebugMode :=
  mkDebugMode (runner self) (debugger self)
    (mkView (finished_tab (debugger self) <$> widgets (view self))
       (current (view self)) (read_only (view self))
       (python_runner (view self)) (debug_inspector (view self))
       (disable_buttons actions (slots (view self))))
    (mkEditor (mode (editor self))
       (status_messages (editor self)
          ++ ["Your script has finished running."])).

Lemma slots_after_finished self :
  slots (view (after_finished self)) =
    <["step-out" := false]>
      (<["step-in" := false]>
         (<["step-over" := false]> (<["run" := false]> (slots (view self))))).
Proof. apply disable_buttons_actions. Qed.

Lemma finished_after_finished code status self :
  has_buttons actions self →
  finished code status self = Done tt (after_finished self).
Proof.
  intros Hb. unfold finished.
  rewrite (bind_done _ _ _ _ _ (disable_loop _ _ Hb)). reflexivity.
Qed.

(** C2, for a session in progress: after the termination event has been
    handled the runner, and with it the process handle, is still there. *)
Lemma finished_keeps_runner :
  ∃ self',
    finished 0 0 (session [blank_tab a_py] (Some 0)) = Done tt self' ∧
    runner self' = Some (mkRunner true) ∧
    mode (editor self') = "debugger".
Proof. eexists. split; [|split]; reflexivity. Qed.

(** C2 (amended): with a runner present, handling the termination event
    leaves the mode in its finished state: runner, debugger, editor mode and
    read-only flag are kept, and of the buttons only ["stop"] is left as it
    was, every other action being disabled.  The [stop()] that follows is what
    ends the session: no runner, no debugger, the session panes removed,
    ["python"] mode and read-only off. *)
Theorem finished_then_stop code status self :
  is_Some (runner self) →
  has_buttons actions self →
  ∃ self1 self2,
    finished code status self = Done tt self1 ∧
    runner self1 = runner self ∧
    debugger self1 = debugger self ∧
    mode (editor self1) = mode (editor self) ∧
    read_only (view self1) = read_only (view self) ∧
    slots (view self1) !! "stop" = slots (view self) !! "stop" ∧
    (∀ name, name ∈ actions → name ≠ "stop" →
             slots (view self1) !! name = Some false) ∧
    stop self1 = Done tt self2 ∧
    runner self2 = None ∧
    debugger self2 = None ∧
    python_runner (view self2) = false ∧
    debug_inspector (view self2) = false ∧
    mode (editor self2) = "python" ∧
    read_only (view self2) = false.
Proof.
  intros [r Hr] Hb. exists (after_finished self), (stopped (after_finished self)).
  split; [by apply finished_after_finished|].
  do 4 (split; [done|]).
  split; [|split].
  - by rewrite slots_after_finished, !lookup_insert_ne.
  - intros name Hin Hne. rewrite slots_after_finished.
    repeat (apply elem_of_cons in Hin as [->|Hin]); try done;
      [..|by apply elem_of_nil in Hin];
      repeat first [ by rewrite lookup_insert_eq
                   | rewrite lookup_insert_ne by done ].
  - split; [apply stop_stopped|]. unfold stopped. cbn. by rewrite Hr.
Qed.

Lemma finished_then_stop_witness :
  ∃ self1 self2,
    finished 0 0 marked_session = Done tt self1 ∧
    runner self1 = Some (mkRunner true) ∧
    stop self1 = Done tt self2 ∧
    runner self2 = None.
Proof.
  destruct (finished_then_stop 0 0 marked_session)
    as (self1 & self2 & Hfin & Hr1 & _ & _ & _ & _ & _ & Hstop & Hr2 & _).
  - eexists. reflexivity.
  - unfold has_buttons, actions. repeat constructor; intros _; eexists;
      vm_compute; reflexivity.
  - exists self1, self2. repeat split; assumption.
Defined.

(** The records the mode can see for a file: those of the debugger client,
    none when there is no client. *)
Definition store_of (self : DebugMode) (file : filename) : gmap Z Breakpoint :=
  match debugger self with
  | Some d => Client.breakpoints d file
  | None => ∅
  end.

Definition remark (tab : Tab) (item : Z * Breakpoint) : Tab :=
  let '(line, breakpoint) := item in
  if bp_enabled breakpoint
  then breakpoint_lines_add (line - 1) (markerAdd (line - 1) tab)
  else tab.

Lemma remark_fold (items : list (Z * Breakpoint)) : ∀ tab,
  let tab' := foldl remark tab items in
  path tab' = path tab ∧
  selection tab' = selection tab ∧
  (∀ m, m ∈ markers tab' ↔
        m ∈ markers tab ∨
        ∃ line bp, (line, bp) ∈ items ∧ bp_enabled bp = true ∧ m = (line - 1)%Z) ∧
  (∀ m, m ∈ breakpoint_lines tab' ↔
        m ∈ breakpoint_lines tab ∨
        ∃ line bp, (line, bp) ∈ items ∧ bp_enabled bp = true ∧ m = (line - 1)%Z).
Proof.
  induction items as [|[line bp] items IH]; intros tab; cbn.
  - repeat split; try tauto; intros [?|(? & ? & Hin & _)]; try done;
      by apply elem_of_nil in Hin.
  - destruct (IH (remark tab (line, bp))) as (Hp & Hs & Hm & Hb).
    assert (∀ (P : Z → Prop) m,
              (P m ∨ bp_enabled bp = true ∧ m = (line - 1)%Z) ∨
              (∃ line' bp', (line', bp') ∈ items ∧ bp_enabled bp' = true
                            ∧ m = (line' - 1)%Z)
              ↔ P m ∨ ∃ line' bp', (line', bp') ∈ (line, bp) :: items
                                   ∧ bp_enabled bp' = true
                                   ∧ m = (line' - 1)%Z) as Hsplit.
    { intros P m. split.
      - intros [[?|[? ?]]|(l' & b' & Hin & ? & ?)]; [by left| |].
        + right. exists line, bp. split; [by left|done].
        + right. exists l', b'. split; [by right|done].
      - intros [?|(l' & b' & Hin & ? & ?)]; [by left; left|].
        apply elem_of_cons in Hin as [[= -> ->]|Hin]; [by left; right|].
        right. by exists l', b'. }
    cbn in Hp, Hs, Hm, Hb.
    destruct (bp_enabled bp) eqn:Hen; cbn in Hp, Hs, Hm, Hb.
    + split; [done|]. split; [done|]. split; intros m.
      * rewrite Hm, <- (Hsplit (λ m, m ∈ markers tab)). set_solver.
      * rewrite Hb, <- (Hsplit (λ m, m ∈ breakpoint_lines tab)). set_solver.
    + split; [done|]. split; [done|]. split; intros m.
      * rewrite Hm, <- (Hsplit (λ m, m ∈ markers tab)). naive_solver.
      * rewrite Hb, <- (Hsplit (λ m, m ∈ breakpoint_lines tab)). naive_solver.
Qed.

Lemma finished_tab_spec self tab :
  let tab' := finished_tab (debugger self) tab in
  path tab' = path tab ∧
  selection tab' = (0, 0, 0, 0)%Z ∧
  (∀ line, (line - 1)%Z ∈ markers tab' ↔
           ∃ bp, store_of self (path tab) !! line = Some bp
                 ∧ bp_enabled bp = true) ∧
  breakpoint_lines tab' = markers tab'.
Proof.
  unfold finished_tab, store_of. destruct (debugger self) as [d|]; cbn.
  - match goal with
    | |- context [foldl ?f ?t0 ?l] =>
        change f with remark; destruct (remark_fold l t0) as (Hp & Hs & Hm & Hb)
    end.
    cbn in Hp, Hs, Hm, Hb.
    split; [done|]. split; [done|]. split.
    + intros line. rewrite Hm. split.
      * intros [Hin|(line' & bp & Hin & Hen & Heq)]; [set_solver|].
        apply elem_of_map_to_list in Hin.
        assert (line' = line) as -> by lia. eauto.
      * intros (bp & Hbp & Hen). right. exists line, bp.
        by rewrite elem_of_map_to_list.
    + apply set_eq. intros m. rewrite Hm, Hb. set_solver.
  - split; [done|]. split; [done|]. split; [|done].
    intros line. rewrite lookup_empty. set_solver.
Qed.

(** C8: handling the termination event rebuilds every tab's markers from the
    store.  Afterwards, in every open tab, the marker at 0-based line
    [line - 1] is shown exactly when the store holds an enabled breakpoint at
    1-based [line] of the tab's file, and the selection is reset to the empty
    selection at the start of the text.  (With no debugger client there are no
    records, and no markers remain.) *)
Theorem finished_rederives_markers code status self :
  has_buttons actions self →
  ∃ self',
    finished code status self = Done tt self' ∧
    length (widgets (view self')) = length (widgets (view self)) ∧
    ∀ i t,
      tab_at i self = Some t →
      ∃ t',
        tab_at i self' = Some t' ∧
        path t' = path t ∧
        selection t' = (0, 0, 0, 0)%Z ∧
        (∀ line, (line - 1)%Z ∈ markers t' ↔
                 ∃ bp, store_of self (path t) !! line = Some bp
                       ∧ bp_enabled bp = true) ∧
        breakpoint_lines t' = markers t'.
Proof.
  intros Hb. exists (after_finished self).
  split; [by apply finished_after_finished|].
  split; [cbn; by rewrite length_fmap|].
  intros i t Ht. exists (finished_tab (debugger self) t).
  split; [|apply finished_tab_spec].
  unfold tab_at in *. cbn. by rewrite list_lookup_fmap, Ht.
Qed.

Lemma finished_rederives_markers_witness :
  ∃ self' t',
    finished 0 0 marked_session = Done tt self' ∧
    tab_at 0 self' = Some t' ∧
    selection t' = (0, 0, 0, 0)%Z ∧
    (4%Z ∈ markers t' ↔
     ∃ bp, store_of marked_session a_py !! 5%Z = Some bp ∧ bp_enabled bp = true).
Proof.
  destruct (finished_rederives_markers 0 0 marked_session)
    as (self' & Hfin & _ & Htabs).
  - unfold has_buttons, actions. repeat constructor; intros _; eexists;
      vm_compute; reflexivity.
  - destruct (Htabs 0 marked_tab eq_refl) as (t' & Ht' & _ & Hsel & Hm & _).
    exists self', t'. repeat split; try assumption; apply (Hm 5%Z).
Defined.

(** ** Bootstrap *)

(** The creation requests [debug_on_bootstrap] sends, in order: tab by tab,
    one for each line remembered in [breakpoint_lines], moved to 1-based. *)
Definition tab_requests (tab : Tab) : list Request :=
  (λ line, Req_create (path tab) (line + 1)) <$> elements (breakpoint_lines tab).

Definition bootstrap_requests (tabs : list Tab) : list Request :=
  tab ← tabs; tab_requests tab.

Definition create_lines (file : filename) (lines : list Z) (d : Debugger)
  : Debugger :=
  foldl (λ d line, Client.create_breakpoint file (line + 1) d) d lines.

Definition create_tabs (tabs : list Tab) (d : Debugger) : Debugger :=
  foldl (λ d tab, create_lines (path tab) (elements (breakpoint_lines tab)) d)
    d tabs.

Lemma create_lines_loop file lines : ∀ self d,
  debugger self = Some d →
  for_each lines (λ line,
    call_debugger (Client.create_breakpoint file (line + 1))) self
  = Done tt (with_debugger (Some (create_lines file lines d)) self).
Proof.
  induction lines as [|line lines IH]; intros self d Hd; cbn.
  - unfold_M. destruct self. cbn in *. by subst.
  - rewrite (bind_done _ _ _ _ _ (call_debugger_some _ _ _ Hd)).
    by rewrite (IH _ (Client.create_breakpoint file (line + 1) d)).
Qed.

Lemma create_tabs_loop tabs : ∀ self d,
  debugger self = Some d →
  for_each tabs (λ tab,
    for_each (elements (breakpoint_lines tab)) (λ line,
      call_debugger (Client.create_breakpoint (path tab) (line + 1)))) self
  = Done tt (with_debugger (Some (create_tabs tabs d)) self).
Proof.
  induction tabs as [|tab tabs IH]; intros self d Hd; cbn.
  - unfold_M. destruct self. cbn in *. by subst.
  - rewrite (bind_done _ _ _ _ _ (create_lines_loop _ _ _ _ Hd)).
    by rewrite (IH _ (create_lines (path tab)
                        (elements (breakpoint_lines tab)) d)).
Qed.

Lemma outbox_create_lines file lines : ∀ d,
  outbox (create_lines file lines d)
  = outbox d ++ ((λ line, Req_create file (line + 1)) <$> lines).
Proof.
  unfold create_lines.
  induction lines as [|line lines IH]; intros d; cbn [foldl fmap list_fmap].
  - by rewrite app_nil_r.
  - rewrite IH. cbn. by rewrite <- app_assoc.
Qed.

Lemma outbox_create_tabs tabs : ∀ d,
  outbox (create_tabs tabs d) = outbox d ++ bootstrap_requests tabs.
Proof.
  unfold create_tabs, bootstrap_requests.
  induction tabs as [|tab tabs IH]; intros d; cbn [foldl mbind list_bind].
  - by rewrite app_nil_r.
  - rewrite IH, outbox_create_lines. by rewrite <- app_assoc.
Qed.

Lemma elem_of_bootstrap_requests r tabs :
  r ∈ bootstrap_requests tabs ↔
  ∃ tab line, tab ∈ tabs ∧ line ∈ breakpoint_lines tab
              ∧ r = Req_create (path tab) (line + 1).
Proof.
  unfold bootstrap_requests. rewrite list_elem_of_bind. split.
  - intros (tab & Hr & Htab). unfold tab_requests in Hr.
    apply list_elem_of_fmap in Hr as (line & -> & Hline).
    apply elem_of_elements in Hline. eauto.
  - intros (tab & line & Htab & Hline & ->). exists tab. split; [|done].
    unfold tab_requests. apply list_elem_of_fmap. exists line.
    by rewrite elem_of_elements.
Qed.

Lemma tab_requests_NoDup tab : NoDup (tab_requests tab).
Proof.
  unfold tab_requests. apply NoDup_fmap_2_strong; [|apply NoDup_elements].
  intros l1 l2 _ _ [= H]. lia.
Qed.

(** C6: on bootstrap the mode first sends one creation request for each line
    remembered in [breakpoint_lines] of each open tab, for the tab's file and
    at the 1-based line, and sends the run request last, after all of them.
    Nothing but the debugger client changes. *)
Theorem bootstrap_breakpoints_then_run self d :
  debugger self = Some d →
  ∃ d',
    debug_on_bootstrap self = Done tt (with_debugger (Some d') self) ∧
    outbox d' =
      outbox d ++ bootstrap_requests (widgets (view self)) ++ [Req_run] ∧
    (∀ r, r ∈ bootstrap_requests (widgets (view self)) ↔
          ∃ tab line, tab ∈ widgets (view self)
                      ∧ line ∈ breakpoint_lines tab
                      ∧ r = Req_create (path tab) (line + 1)) ∧
    (∀ tab, tab ∈ widgets (view self) →
            NoDup (tab_requests tab) ∧
            length (tab_requests tab) = size (breakpoint_lines tab)) ∧
    Req_run ∉ bootstrap_requests (widgets (view self)).
Proof.
  intros Hd.
  exists (Client.do_run (create_tabs (widgets (view self)) d)).
  split; [|split; [|split; [|split]]].
  - unfold debug_on_bootstrap. unfold mbind at 1, M_bind, bind at 1, get.
    rewrite (bind_done _ _ _ _ _ (create_tabs_loop _ _ _ Hd)).
    by rewrite (call_debugger_some _ _ (create_tabs (widgets (view self)) d)).
  - unfold Client.do_run. rewrite outbox_send, outbox_create_tabs.
    by rewrite <- app_assoc.
  - intros r. apply elem_of_bootstrap_requests.
  - intros tab _. split; [apply tab_requests_NoDup|].
    unfold tab_requests. by rewrite length_fmap.
  - intros Hin. apply elem_of_bootstrap_requests in Hin
      as (tab & line & _ & _ & Hr). discriminate Hr.
Qed.

(** Two tabs with remembered breakpoints, before the debugger has any. *)
Definition remembered : DebugMode :=
  session [set_breakpoint_lines {[9%Z]} (blank_tab a_py);
           set_breakpoint_lines {[2%Z]} (blank_tab b_py)] (Some 0).

Lemma bootstrap_breakpoints_then_run_witness :
  ∃ d',
    debug_on_bootstrap remembered = Done tt (with_debugger (Some d') remembered) ∧
    outbox d' = [Req_create a_py 10; Req_create b_py 3; Req_run].
Proof.
  destruct (bootstrap_breakpoints_then_run remembered (mkDebugger ∅ []))
    as (d' & Hrun & Hout & _).
  - reflexivity.
  - exists d'. split; [exact Hrun|]. rewrite Hout. vm_compute. reflexivity.
Defined.

(** * Further properties of the mode *)

(** The state a call ends in, whether it returned or raised. *)
Definition final_state {A} (r : Res A) : DebugMode :=
  match r with
  | Done _ s | Raise _ s => s
  end.

Definition button_continue : M unit := call_debugger Client.do_run.

(** ** Calls that need the debugger client *)

Lemma toggle_no_debugger line tab self :
  debugger self = None →
  toggle_breakpoint line tab self = Raise AttributeError self.
Proof.
  intros Hd. unfold toggle_breakpoint.
  by rewrite (bind_raise _ _ _ _ _ (the_debugger_none _ Hd)).
Qed.

Lemma toggle_no_tab line tab self d :
  debugger self = Some d →
  tab_at tab self = None →
  toggle_breakpoint line tab self = Raise RuntimeError self.
Proof.
  intros Hd Ht. unfold toggle_breakpoint.
  rewrite (bind_done _ _ _ _ _ (the_debugger_some _ _ Hd)).
  unfold read_tab. unfold_M. by rewrite Ht.
Qed.

Lemma for_each_no_debugger {A} (f : A → Debugger → Debugger) l self :
  debugger self = None →
  for_each l (λ x, call_debugger (f x)) self = Done tt self ∧ l = [] ∨
  for_each l (λ x, call_debugger (f x)) self = Raise AttributeError self.
Proof.
  intros Hd. destruct l as [|x l]; [by left|]. right. cbn.
  by rewrite (bind_raise _ _ _ _ _ (call_debugger_none _ _ Hd)).
Qed.

Lemma bootstrap_no_debugger self :
  debugger self = None →
  debug_on_bootstrap self = Raise AttributeError self.
Proof.
  intros Hd. unfold debug_on_bootstrap. unfold mbind at 1, M_bind, bind at 1, get.
  assert (∀ tabs,
            for_each tabs (λ tab,
              for_each (elements (breakpoint_lines tab)) (λ line,
                call_debugger (Client.create_breakpoint (path tab) (line + 1))))
              self = Done tt self
            ∨ for_each tabs (λ tab,
                for_each (elements (breakpoint_lines tab)) (λ line,
                  call_debugger (Client.create_breakpoint (path tab) (line + 1))))
                self = Raise AttributeError self) as Hloop.
  { induction tabs as [|tab tabs IH]; [by left|]. cbn [for_each].
    destruct (for_each_no_debugger
                (λ line, Client.create_breakpoint (path tab) (line + 1))
                (elements (breakpoint_lines tab)) self Hd) as [[Hrun _]|Hrun].
    - rewrite (bind_done _ _ _ _ _ Hrun). exact IH.
    - right. by rewrite (bind_raise _ _ _ _ _ Hrun). }
  destruct (Hloop (widgets (view self))) as [Hrun|Hrun].
  - rewrite (bind_done _ _ _ _ _ Hrun). by apply call_debugger_none.
  - by rewrite (bind_raise _ _ _ _ _ Hrun).
Qed.

(** X1: once [stop()] has torn a session down there is no debugger client
    left, so toggling a breakpoint, the bootstrap handler and the continue
    button all raise [AttributeError]; each leaves the stopped state as it
    is. *)
Theorem after_stop_client_calls_raise self line tab :
  is_Some (runner self) →
  ∃ self1,
    stop self = Done tt self1 ∧
    debugger self1 = None ∧
    toggle_breakpoint line tab self1 = Raise AttributeError self1 ∧
    debug_on_bootstrap self1 = Raise AttributeError self1 ∧
    button_continue self1 = Raise AttributeError self1.
Proof.
  intros [r Hr]. exists (stopped self).
  assert (debugger (stopped self) = None) as Hd.
  { unfold stopped. by rewrite Hr. }
  split; [apply stop_stopped|]. split; [done|].
  split; [by apply toggle_no_debugger|].
  split; [by apply bootstrap_no_debugger|].
  by apply call_debugger_none.
Qed.

Lemma after_stop_client_calls_raise_witness :
  ∃ self1,
    stop marked_session = Done tt self1 ∧
    toggle_breakpoint 4 0 self1 = Raise AttributeError self1.
Proof.
  destruct (after_stop_client_calls_raise marked_session 4 0)
    as (self1 & Hstop & _ & Htoggle & _).
  - eexists. reflexivity.
  - exists self1. split; assumption.
Defined.

(** ** What a toggle touches *)

(** X2: whether it returns or raises, [toggle_breakpoint] changes nothing but
    the debugger client and the marker at the given line of the given tab:
    the other tabs, the tab's path, remembered breakpoint lines and selection,
    its markers at every other line, the runner, the editor and the rest of
    the view are as before. *)
Theorem toggle_frame line tab self :
  let self' := final_state (toggle_breakpoint line tab self) in
  runner self' = runner self ∧
  editor self' = editor self ∧
  current (view self') = current (view self) ∧
  read_only (view self') = read_only (view self) ∧
  slots (view self') = slots (view self) ∧
  length (widgets (view self')) = length (widgets (view self)) ∧
  (∀ j, j ≠ tab → tab_at j self' = tab_at j self) ∧
  (∀ t, tab_at tab self = Some t →
        ∃ t', tab_at tab self' = Some t' ∧
              path t' = path t ∧
              breakpoint_lines t' = breakpoint_lines t ∧
              selection t' = selection t ∧
              ∀ m, m ≠ line → (m ∈ markers t' ↔ m ∈ markers t)).
Proof.
  destruct (debugger self) as [d|] eqn:Hd;
    [|rewrite (toggle_no_debugger _ _ _ Hd); cbn; repeat split; eauto 10].
  destruct (tab_at tab self) as [t|] eqn:Ht;
    [|rewrite (toggle_no_tab _ _ _ _ Hd Ht); cbn; repeat split; try done;
      intros ? [=]].
  assert (∀ dbg t',
            path t' = path t → breakpoint_lines t' = breakpoint_lines t →
            selection t' = selection t →
            (∀ m, m ≠ line → (m ∈ markers t' ↔ m ∈ markers t)) →
            let self' := put_tab tab t' (with_debugger dbg self) in
            runner self' = runner self ∧
            editor self' = editor self ∧
            current (view self') = current (view self) ∧
            read_only (view self') = read_only (view self) ∧
            slots (view self') = slots (view self) ∧
            length (widgets (view self')) = length (widgets (view self)) ∧
            (∀ j, j ≠ tab → tab_at j self' = tab_at j self) ∧
            (∀ t0, Some t = Some t0 →
                   ∃ t'0, tab_at tab self' = Some t'0 ∧
                          path t'0 = path t0 ∧
                          breakpoint_lines t'0 = breakpoint_lines t0 ∧
                          selection t'0 = selection t0 ∧
                          ∀ m, m ≠ line → (m ∈ markers t'0 ↔ m ∈ markers t0)))
    as Hput.
  { intros dbg t' Hp Hb Hs Hm. cbn. do 5 (split; [done|]).
    split; [by rewrite length_insert|].
    split; [intros j Hj; by apply (tab_at_put_tab_ne tab j t' (with_debugger dbg self))|].
    intros t0 [= <-]. exists t'. split; [|done].
    apply (tab_at_put_tab tab t' (with_debugger dbg self)). eauto. }
  destruct (decide (line ∈ markers t)) as [Hm|Hm].
  - destruct (Client.breakpoints d (path t) !! (line + 1)%Z) as [bp|] eqn:Hbp.
    + rewrite (toggle_off _ _ _ _ _ Hd Ht bp Hm Hbp).
      apply Hput; try done. cbn. set_solver.
    + rewrite (toggle_off_missing _ _ _ _ _ Hd Ht Hm Hbp). cbn.
      repeat split; try done. intros t0 [= <-]. eauto 10.
  - destruct (Client.breakpoints d (path t) !! (line + 1)%Z) as [bp|] eqn:Hbp.
    + rewrite (toggle_on_existing _ _ _ _ _ Hd Ht bp Hm Hbp).
      rewrite <- put_tab_with_debugger. apply Hput; try done. cbn. set_solver.
    + rewrite (toggle_on_fresh _ _ _ _ _ Hd Ht Hm Hbp).
      rewrite <- put_tab_with_debugger. apply Hput; try done. cbn. set_solver.
Qed.

(** X3: with a debugger client and the tab at hand, a toggle at a line whose
    marker (if shown) has its record always returns; it flips the marker at
    that line, and afterwards the line has a record.  In particular toggling
    on needs no record beforehand. *)
Theorem toggle_flips_marker self d tab t line :
  debugger self = Some d →
  tab_at tab self = Some t →
  (line ∈ markers t → is_Some (Client.breakpoints d (path t) !! (line + 1)%Z)) →
  ∃ self' d' t',
    toggle_breakpoint line tab self = Done tt self' ∧
    debugger self' = Some d' ∧
    tab_at tab self' = Some t' ∧
    (line ∈ markers t' ↔ line ∉ markers t) ∧
    is_Some (Client.breakpoints d' (path t) !! (line + 1)%Z).
Proof.
  intros Hd Ht Hrec.
  destruct (decide (line ∈ markers t)) as [Hm|Hm].
  - destruct (Hrec Hm) as [bp Hbp].
    eexists _, _, (markerDelete line t).
    split; [by eapply toggle_off|]. split; [done|].
    split; [apply tab_at_put_tab; eauto|].
    split; [cbn; set_solver|].
    unfold Client.disable_breakpoint. rewrite breakpoints_send.
    apply flip_keeps_record. eauto.
  - destruct (Client.breakpoints d (path t) !! (line + 1)%Z) as [bp|] eqn:Hbp.
    + eexists _, _, (markerAdd line t).
      split; [by eapply toggle_on_existing|]. split; [done|].
      split; [apply tab_at_put_tab; eauto|].
      split; [cbn; set_solver|].
      unfold Client.enable_breakpoint. rewrite breakpoints_send.
      apply flip_keeps_record. rewrite Hbp. eauto.
    + eexists _, _, (markerAdd line t).
      split; [by eapply toggle_on_fresh|]. split; [done|].
      split; [apply tab_at_put_tab; eauto|].
      split; [cbn; set_solver|].
      rewrite breakpoints_create, decide_True, lookup_insert_eq by done. eauto.
Qed.

Lemma toggle_flips_marker_witness :
  ∃ self' t',
    toggle_breakpoint 4 0 (session [blank_tab a_py] (Some 0)) = Done tt self' ∧
    tab_at 0 self' = Some t' ∧
    4%Z ∈ markers t'.
Proof.
  destruct (toggle_flips_marker (session [blank_tab a_py] (Some 0))
              (mkDebugger ∅ []) 0 (blank_tab a_py) 4)
    as (self' & d' & t' & Hrun & _ & Ht' & Hflip & _).
  - reflexivity.
  - reflexivity.
  - cbn. set_solver.
  - exists self', t'. repeat split; try assumption.
    apply Hflip. cbn. set_solver.
Defined.

(** ** Every marker has its record *)

(** The condition under which no toggle can hit the unguarded lookup: in
    every tab, a shown marker has a record one line further in the tab's
    file. *)
Definition markers_recorded (self : DebugMode) : Prop :=
  ∀ d i t line,
    debugger self = Some d →
    tab_at i self = Some t →
    line ∈ markers t →
    is_Some (Client.breakpoints d (path t) !! (line + 1)%Z).

Definition toggle_all (l : list (Z * nat)) : M unit :=
  for_each l (λ p, toggle_breakpoint p.1 p.2).

Lemma recorded_step self d tab t t' d' line :
  markers_recorded self →
  debugger self = Some d →
  tab_at tab self = Some t →
  path t' = path t →
  (∀ file l, is_Some (Client.breakpoints d file !! l) →
             is_Some (Client.breakpoints d' file !! l)) →
  (∀ m, m ∈ markers t' →
        m ∈ markers t
        ∨ m = line ∧ is_Some (Client.breakpoints d' (path t) !! (line + 1)%Z)) →
  markers_recorded (put_tab tab t' (with_debugger (Some d') self)).
Proof.
  intros Hinv Hd Ht Hp Hkeep Hm d0 i t0 m [= <-] Ht0 Hin.
  destruct (decide (i = tab)) as [->|Hne].
  - rewrite tab_at_put_tab in Ht0 by (rewrite tab_at_with_debugger; eauto).
    injection Ht0 as <-. rewrite Hp.
    destruct (Hm m Hin) as [Hold|[-> Hnew]]; [|done].
    apply Hkeep. by eapply Hinv.
  - rewrite tab_at_put_tab_ne, tab_at_with_debugger in Ht0 by done.
    apply Hkeep. by eapply Hinv.
Qed.

Lemma toggle_keeps_recorded self d tab t line :
  markers_recorded self →
  debugger self = Some d →
  tab_at tab self = Some t →
  ∃ self' d',
    toggle_breakpoint line tab self = Done tt self' ∧
    debugger self' = Some d' ∧
    length (widgets (view self')) = length (widgets (view self)) ∧
    markers_recorded self'.
Proof.
  intros Hinv Hd Ht.
  destruct (decide (line ∈ markers t)) as [Hm|Hm].
  - destruct (Hinv d tab t line Hd Ht Hm) as [bp Hbp].
    eexists _, _. split; [by eapply toggle_off|]. split; [done|].
    split; [cbn; by rewrite length_insert|].
    eapply (recorded_step self d tab t _ _ line); try done.
    + intros file l Hl. unfold Client.disable_breakpoint.
      rewrite breakpoints_send. by apply flip_keeps_record.
    + intros m Hin. left. cbn in Hin. set_solver.
  - destruct (Client.breakpoints d (path t) !! (line + 1)%Z) as [bp|] eqn:Hbp.
    + eexists _, _. split; [by eapply toggle_on_existing|]. split; [done|].
      split; [cbn; by rewrite length_insert|].
      rewrite <- put_tab_with_debugger.
      assert (∀ file l, is_Some (Client.breakpoints d file !! l) →
                is_Some (Client.breakpoints (Client.enable_breakpoint bp d) file
                         !! l)) as Hkeep.
      { intros file l Hl. unfold Client.enable_breakpoint.
        rewrite breakpoints_send. by apply flip_keeps_record. }
      eapply (recorded_step self d tab t _ _ line); try done.
      intros m Hin. cbn in Hin. apply elem_of_union in Hin as [Hin|Hin]; [|by left].
      right. apply elem_of_singleton in Hin. split; [done|].
      apply Hkeep. rewrite Hbp. eauto.
    + eexists _, _. split; [by eapply toggle_on_fresh|]. split; [done|].
      split; [cbn; by rewrite length_insert|].
      rewrite <- put_tab_with_debugger.
      eapply (recorded_step self d tab t _ _ line); try done.
      * intros file l Hl. by apply create_keeps_record.
      * intros m Hin. cbn in Hin.
        apply elem_of_union in Hin as [Hin|Hin]; [|by left].
        right. apply elem_of_singleton in Hin. split; [done|].
        rewrite breakpoints_create, decide_True, lookup_insert_eq by done. eauto.
Qed.

(** X4: as long as every shown marker has its record, toggling can go on for
    ever: any sequence of toggles at any lines of tabs the view holds returns
    without an exception and every marker still has its record afterwards. *)
Theorem toggles_never_miss (l : list (Z * nat)) : ∀ self,
  is_Some (debugger self) →
  markers_recorded self →
  Forall (λ p, p.2 < length (widgets (view self))) l →
  ∃ self',
    toggle_all l self = Done tt self' ∧
    is_Some (debugger self') ∧
    markers_recorded self'.
Proof.
  induction l as [|[line tab] l IH]; intros self [d Hd] Hinv Htabs.
  - exists self. by eauto.
  - apply Forall_cons in Htabs as [Htab Htabs]. cbn in Htab.
    destruct (lookup_lt_is_Some_2 (widgets (view self)) tab Htab) as [t Ht].
    destruct (toggle_keeps_recorded self d tab t line Hinv Hd Ht)
      as (self1 & d1 & Hrun & Hd1 & Hlen & Hinv1).
    destruct (IH self1) as (self' & Hrun' & Hd' & Hinv'); [eauto|done| |].
    { by rewrite Hlen. }
    exists self'. split; [|done].
    unfold toggle_all. cbn [for_each].
    by rewrite (bind_done _ _ _ _ _ Hrun).
Qed.

Lemma toggles_never_miss_witness :
  ∃ self',
    toggle_all [(4%Z, 0); (7%Z, 0); (4%Z, 0); (7%Z, 0)] marked_session
      = Done tt self' ∧
    markers_recorded self'.
Proof.
  destruct (toggles_never_miss [(4%Z, 0); (7%Z, 0); (4%Z, 0); (7%Z, 0)]
              marked_session) as (self' & Hrun & _ & Hinv).
  - eexists. reflexivity.
  - intros d i t line [= <-] Ht Hin.
    destruct i as [|i]; [|destruct i; discriminate Ht].
    injection Ht as <-. unfold marked_tab in Hin. cbn in Hin.
    assert (line = 4%Z) as -> by set_solver.
    eexists. vm_compute. reflexivity.
  - repeat constructor.
  - exists self'. split; assumption.
Defined.

(** ** Marker events *)

Lemma update_current_twice (f g h : Tab → Tab) self :
  (∀ t, g (f t) = h t) →
  ((current_tab ≫= λ tab, update_current tab f);;
   (current_tab ≫= λ tab, update_current tab g)) self
  = (current_tab ≫= λ tab, update_current tab h) self.
Proof.
  intros Hcomp. destruct (current (view self)) as [i|] eqn:Hc.
  - destruct (tab_at i self) as [t|] eqn:Ht.
    + rewrite (bind_done _ _ _ _ _ (update_current_some f self i t Hc Ht)).
      rewrite (update_current_some g (put_tab i (f t) self) i (f t));
        [|done|apply tab_at_put_tab; eauto].
      rewrite (update_current_some h self i t Hc Ht).
      by rewrite put_tab_put_tab, Hcomp.
    + assert (∀ k, (current_tab ≫= λ tab, update_current tab k) self
                   = Raise RuntimeError self) as Hraise.
      { intros k. unfold current_tab. unfold_M. rewrite Hc. cbn.
        by rewrite (update_tab_none _ _ _ Ht). }
      by rewrite (bind_raise _ _ _ _ _ (Hraise f)), Hraise.
  - rewrite (bind_raise _ _ _ _ _ (update_current_none f self Hc)).
    by rewrite (update_current_none h self Hc).
Qed.

Lemma markerDelete_after_add line t :
  markerDelete line (markerAdd line t) = markerDelete line t.
Proof. apply tab_eq; try done. cbn. set_solver. Qed.

Lemma markerAdd_after_delete line t :
  markerAdd line (markerDelete line t) = markerAdd line t.
Proof.
  apply tab_eq; try done. cbn. apply set_eq. intros x.
  destruct (decide (x = line)); set_solver.
Qed.

Lemma markerAdd_twice line t : markerAdd line (markerAdd line t) = markerAdd line t.
Proof. apply tab_eq; try done. cbn. set_solver. Qed.

Lemma markerDelete_twice line t :
  markerDelete line (markerDelete line t) = markerDelete line t.
Proof. apply tab_eq; try done. cbn. set_solver. Qed.

(** X5: of two marker events for breakpoints at the same line the later one
    decides: an enable followed by a disable ends exactly as the disable alone
    would, a disable followed by an enable as the enable alone, and a repeated
    event changes nothing more.  This holds in every state, the ones in which
    the handlers raise included. *)
Theorem last_marker_event_wins bp bp' self :
  bp_line bp = bp_line bp' →
  (debug_on_breakpoint_enable bp;; debug_on_breakpoint_disable bp') self
    = debug_on_breakpoint_disable bp' self ∧
  (debug_on_breakpoint_disable bp;; debug_on_breakpoint_enable bp') self
    = debug_on_breakpoint_enable bp' self ∧
  (debug_on_breakpoint_enable bp;; debug_on_breakpoint_enable bp') self
    = debug_on_breakpoint_enable bp' self ∧
  (debug_on_breakpoint_disable bp;; debug_on_breakpoint_disable bp') self
    = debug_on_breakpoint_disable bp' self.
Proof.
  intros Hl. unfold debug_on_breakpoint_enable, debug_on_breakpoint_disable.
  rewrite Hl. repeat split; apply update_current_twice; intros t.
  - apply markerDelete_after_add.
  - apply markerAdd_after_delete.
  - apply markerAdd_twice.
  - apply markerDelete_twice.
Qed.

Lemma last_marker_event_wins_witness :
  (debug_on_breakpoint_enable (mkBreakpoint a_py 8 true 0);;
   debug_on_breakpoint_disable (mkBreakpoint b_py 8 false 0)) two_tabs
  = debug_on_breakpoint_disable (mkBreakpoint b_py 8 false 0) two_tabs.
Proof.
  apply (last_marker_event_wins (mkBreakpoint a_py 8 true 0)
           (mkBreakpoint b_py 8 false 0) two_tabs).
  reflexivity.
Defined.

(** X6: with no tab shown the three inbound handlers raise [AttributeError]
    and change nothing. *)
Theorem inbound_handlers_need_shown_tab self file line bp :
  current (view self) = None →
  debug_on_line file line self = Raise AttributeError self ∧
  debug_on_breakpoint_enable bp self = Raise AttributeError self ∧
  debug_on_breakpoint_disable bp self = Raise AttributeError self.
Proof. intros Hc. repeat split; by apply update_current_none. Qed.

Lemma inbound_handlers_need_shown_tab_witness :
  debug_on_line "a.py" 3 entered_without_script
    = Raise AttributeError entered_without_script.
Proof.
  apply (inbound_handlers_need_shown_tab entered_without_script "a.py" 3
           (mkBreakpoint a_py 3 true 0)).
  reflexivity.
Defined.

(** X7: an enable event for a breakpoint whose line has no record in the file
    of the tab shown (a breakpoint of another file, say) still puts a marker
    on that tab; the next toggle at that marker then raises [KeyError]. *)
Theorem foreign_enable_event_breaks_toggle self d i t bp :
  debugger self = Some d →
  current (view self) = Some i →
  tab_at i self = Some t →
  Client.breakpoints d (path t) !! bp_line bp = None →
  ∃ self1 t1,
    debug_on_breakpoint_enable bp self = Done tt self1 ∧
    tab_at i self1 = Some t1 ∧
    (bp_line bp - 1)%Z ∈ markers t1 ∧
    toggle_breakpoint (bp_line bp - 1) i self1 = Raise KeyError self1.
Proof.
  intros Hd Hc Ht Hnone.
  exists (put_tab i (markerAdd (bp_line bp - 1) t) self),
         (markerAdd (bp_line bp - 1) t).
  assert (tab_at i (put_tab i (markerAdd (bp_line bp - 1) t) self)
          = Some (markerAdd (bp_line bp - 1) t)) as Ht1
    by (apply tab_at_put_tab; eauto).
  split; [by apply enable_event|]. split; [done|].
  split; [cbn; set_solver|].
  eapply toggle_off_missing; [exact Hd|exact Ht1|cbn; set_solver|].
  cbn. by replace (bp_line bp - 1 + 1)%Z with (bp_line bp) by lia.
Qed.

Lemma foreign_enable_event_breaks_toggle_witness :
  ∃ self1,
    debug_on_breakpoint_enable (mkBreakpoint a_py 8 true 0) two_tabs
      = Done tt self1 ∧
    toggle_breakpoint 7 1 self1 = Raise KeyError self1.
Proof.
  destruct (foreign_enable_event_breaks_toggle two_tabs (mkDebugger ∅ []) 1
              (blank_tab b_py) (mkBreakpoint a_py 8 true 0))
    as (self1 & t1 & Hev & _ & _ & Htoggle).
  - reflexivity.
  - reflexivity.
  - reflexivity.
  - vm_compute. reflexivity.
  - exists self1. split; [exact Hev|exact Htoggle].
Defined.

(** ** More on the end of the process *)

Definition bare (dbg : option Debugger) : DebugMode :=
  mkDebugMode None dbg (mkView [] None false false false ∅) (mkEditor "" []).

Lemma finished_tab_markers dbg tab m :
  m ∈ markers (finished_tab dbg tab) ↔
  ∃ bp, store_of (bare dbg) (path tab) !! (m + 1)%Z = Some bp
        ∧ bp_enabled bp = true.
Proof.
  destruct (finished_tab_spec (bare dbg) tab) as (_ & _ & Hm & _).
  cbn in Hm. rewrite <- Hm. by replace (m + 1 - 1)%Z with m by lia.
Qed.

Lemma finished_tab_twice dbg tab :
  finished_tab dbg (finished_tab dbg tab) = finished_tab dbg tab.
Proof.
  destruct (finished_tab_spec (bare dbg) tab) as (Hp & Hs & _ & Hb).
  destruct (finished_tab_spec (bare dbg) (finished_tab dbg tab))
    as (Hp' & Hs' & _ & Hb').
  cbn in Hp, Hs, Hb, Hp', Hs', Hb'.
  assert (markers (finished_tab dbg (finished_tab dbg tab))
          = markers (finished_tab dbg tab)) as Hm.
  { apply set_eq. intros m. rewrite !finished_tab_markers. by rewrite Hp. }
  apply tab_eq; [by rewrite Hp'|done| |congruence]. by rewrite Hb', Hb.
Qed.

Lemma disable_buttons_twice s :
  disable_buttons actions (disable_buttons actions s)
  = disable_buttons actions s.
Proof.
  rewrite !disable_buttons_actions. apply map_eq. intros k.
  rewrite !lookup_insert. by repeat case_decide.
Qed.

Lemma has_buttons_after_finished self :
  has_buttons actions self → has_buttons actions (after_finished self).
Proof.
  unfold has_buttons. intros Hb. eapply Forall_impl; [exact Hb|].
  cbn beta. intros name Hname Hne. rewrite slots_after_finished.
  rewrite !lookup_insert. repeat case_decide; eauto.
Qed.

(** X8: handling the termination event a second time changes nothing in the
    view (tabs, markers, remembered lines, selections and buttons are those
    left by the first handling), nor the runner or the debugger; only the
    status message is shown again. *)
Theorem finished_twice code status code' status' self :
  has_buttons actions self →
  ∃ self1 self2,
    finished code status self = Done tt self1 ∧
    finished code' status' self1 = Done tt self2 ∧
    view self2 = view self1 ∧
    runner self2 = runner self1 ∧
    debugger self2 = debugger self1 ∧
    mode (editor self2) = mode (editor self1) ∧
    status_messages (editor self2)
      = status_messages (editor self1)
          ++ ["Your script has finished running."].
Proof.
  intros Hb. exists (after_finished self), (after_finished (after_finished self)).
  split; [by apply finished_after_finished|].
  split; [by apply finished_after_finished, has_buttons_after_finished|].
  split; [|done].
  unfold after_finished.
  cbn [view widgets current read_only python_runner debug_inspector slots
       debugger].
  rewrite disable_buttons_twice. f_equal.
  rewrite <- list_fmap_compose. apply list_fmap_ext. intros i t _. cbn.
  apply finished_tab_twice.
Qed.

Lemma finished_twice_witness :
  ∃ self1 self2,
    finished 0 0 marked_session = Done tt self1 ∧
    finished 1 0 self1 = Done tt self2 ∧
    view self2 = view self1.
Proof.
  destruct (finished_twice 0 0 1 0 marked_session)
    as (self1 & self2 & H1 & H2 & Hv & _).
  - unfold has_buttons, actions. repeat constructor; intros _; eexists;
      vm_compute; reflexivity.
  - exists self1, self2. repeat split; assumption.
Defined.

(** The loop over the actions changes nothing but button flags. *)
Definition same_but_slots (self self' : DebugMode) : Prop :=
  runner self' = runner self ∧
  debugger self' = debugger self ∧
  editor self' = editor self ∧
  widgets (view self') = widgets (view self) ∧
  current (view self') = current (view self) ∧
  read_only (view self') = read_only (view self).

Lemma disable_loop_missing names : ∀ self name,
  name ∈ names → name ≠ "stop" → slots (view self) !! name = None →
  ∃ self',
    for_each names (λ name,
      if bool_decide (name ≠ "stop") then setEnabled name false else mret tt)
      self = Raise KeyError self' ∧
    same_but_slots self self'.
Proof.
  induction names as [|first names IH]; intros self name Hin Hne Hnone.
  - by apply elem_of_nil in Hin.
  - cbn [for_each]. case_bool_decide as Hstop.
    + destruct (slots (view self) !! first) as [b|] eqn:Hfirst.
      * rewrite (bind_done _ _ _ _ _
                   (setEnabled_some first false self (ex_intro _ b Hfirst))).
        apply elem_of_cons in Hin as [->|Hin]; [congruence|].
        destruct (IH (with_view (with_slots (<[first := false]>
                                               (slots (view self)))
                                   (view self)) self) name Hin Hne)
          as (self' & Hrun & Hsame).
        { cbn. rewrite lookup_insert_ne; [done|]. intros ->. congruence. }
        exists self'. split; [done|]. exact Hsame.
      * exists self. split; [|by repeat split].
        apply bind_raise. unfold setEnabled. unfold_M. by rewrite Hfirst.
    + apply elem_of_cons in Hin as [->|Hin].
      { exfalso. by apply Hne. }
      destruct (IH self name Hin Hne Hnone) as (self' & Hrun & Hsame).
      exists self'. split; [|done]. unfold_M. exact Hrun.
Qed.

(** X9: if the button bar lacks the button of some action other than
    ["stop"], handling the termination event raises [KeyError] before any tab
    is touched and before the status message is shown: tabs, markers, editor,
    runner and debugger are as they were. *)
Theorem finished_missing_button code status self name :
  name ∈ actions → name ≠ "stop" → slots (view self) !! name = None →
  ∃ self',
    finished code status self = Raise KeyError self' ∧
    widgets (view self') = widgets (view self) ∧
    editor self' = editor self ∧
    runner self' = runner self ∧
    debugger self' = debugger self.
Proof.
  intros Hin Hne Hnone.
  destruct (disable_loop_missing actions self name Hin Hne Hnone)
    as (self' & Hrun & Hr & Hd & He & Hw & _).
  exists self'. split; [|done].
  unfold finished. by apply bind_raise.
Qed.

Lemma finished_missing_button_witness :
  ∃ self',
    finished 0 0 (mkDebugMode (Some (mkRunner true)) (Some one_breakpoint)
                    (mkView [marked_tab] (Some 0) true true true
                       {["stop" := true; "run" := true]})
                    (mkEditor "debugger" []))
      = Raise KeyError self' ∧
    widgets (view self') = [marked_tab].
Proof.
  destruct (finished_missing_button 0 0
              (mkDebugMode (Some (mkRunner true)) (Some one_breakpoint)
                 (mkView [marked_tab] (Some 0) true true true
                    {["stop" := true; "run" := true]})
                 (mkEditor "debugger" [])) "step-over")
    as (self' & Hrun & Hw & _).
  - unfold actions. set_solver.
  - discriminate.
  - vm_compute. reflexivity.
  - exists self'. split; assumption.
Defined.

(** X10: when the termination event is handled while there is no debugger
    client (after [stop()], say), every tab loses all its markers and all its
    remembered breakpoint lines, so a later bootstrap has nothing to
    re-apply. *)
Theorem finished_without_client_forgets code status self :
  debugger self = None →
  has_buttons actions self →
  ∃ self',
    finished code status self = Done tt self' ∧
    (∀ i t', tab_at i self' = Some t' →
             markers t' = ∅ ∧ breakpoint_lines t' = ∅) ∧
    bootstrap_requests (widgets (view self')) = [].
Proof.
  intros Hd Hb. exists (after_finished self).
  split; [by apply finished_after_finished|].
  unfold after_finished. rewrite Hd. cbn [view widgets]. split.
  - intros i t' Ht'. unfold tab_at in Ht'. cbn in Ht'.
    rewrite list_lookup_fmap in Ht'.
    destruct (widgets (view self) !! i) as [t|]; [|done].
    by injection Ht' as <-.
  - unfold bootstrap_requests.
    induction (widgets (view self)) as [|t ws IH]; [done|].
    cbn [fmap list_fmap mbind list_bind]. cbn in IH. rewrite IH.
    unfold tab_requests. cbn. by rewrite elements_empty.
Qed.

Lemma finished_without_client_forgets_witness :
  ∃ self1 self2,
    stop marked_session = Done tt self1 ∧
    finished 0 0 self1 = Done tt self2 ∧
    bootstrap_requests (widgets (view self2)) = [].
Proof.
  destruct (finished_without_client_forgets 0 0 (stopped marked_session))
    as (self2 & Hfin & _ & Hnone).
  - reflexivity.
  - unfold has_buttons, actions. repeat constructor; intros _; eexists;
      vm_compute; reflexivity.
  - exists (stopped marked_session), self2.
    split; [apply stop_stopped|]. split; assumption.
Defined.

(** ** From one session to the next *)

Lemma bootstrap_with_client self d :
  debugger self = Some d →
  debug_on_bootstrap self =
    Done tt (with_debugger
               (Some (Client.do_run (create_tabs (widgets (view self)) d)))
               self).
Proof.
  intros Hd. unfold debug_on_bootstrap. unfold mbind at 1, M_bind, bind at 1, get.
  rewrite (bind_done _ _ _ _ _ (create_tabs_loop _ _ _ Hd)).
  by rewrite (call_debugger_some _ _ (create_tabs (widgets (view self)) d)).
Qed.

(** X11: what the end of one session hands to the next.  After the
    termination event and [stop()], the bootstrap of a new debugger client
    over the same tabs asks for exactly the breakpoints that were enabled in
    the store when the process ended, each at its own 1-based line, and then
    runs; disabled breakpoints are not re-applied. *)
Theorem enabled_breakpoints_reapplied code status self d_new :
  has_buttons actions self →
  ∃ self1 self2 d' sent,
    finished code status self = Done tt self1 ∧
    stop self1 = Done tt self2 ∧
    debug_on_bootstrap (with_debugger (Some d_new) self2)
      = Done tt (with_debugger (Some d') self2) ∧
    outbox d' = outbox d_new ++ sent ++ [Req_run] ∧
    ∀ r, r ∈ sent ↔
         ∃ t line bp, t ∈ widgets (view self)
                      ∧ store_of self (path t) !! line = Some bp
                      ∧ bp_enabled bp = true
                      ∧ r = Req_create (path t) line.
Proof.
  intros Hb.
  set (self1 := after_finished self). set (self2 := stopped self1).
  assert (widgets (view self2)
          = finished_tab (debugger self) <$> widgets (view self)) as Hw.
  { unfold self2, stopped, self1. by destruct (runner (after_finished self)). }
  exists self1, self2,
    (Client.do_run (create_tabs (widgets (view self2)) d_new)),
    (bootstrap_requests (widgets (view self2))).
  split; [by apply finished_after_finished|].
  split; [apply stop_stopped|].
  split; [by rewrite (bootstrap_with_client _ d_new)|].
  split.
  { unfold Client.do_run. rewrite outbox_send, outbox_create_tabs.
    by rewrite <- app_assoc. }
  intros r. rewrite elem_of_bootstrap_requests, Hw. split.
  - intros (tab & line & Htab & Hline & ->).
    apply list_elem_of_fmap in Htab as (t & -> & Ht).
    destruct (finished_tab_spec self t) as (Hp & _ & _ & Hbl).
    cbn in Hp, Hbl. rewrite Hbl in Hline.
    apply finished_tab_markers in Hline as (bp & Hbp & Hen).
    exists t, (line + 1)%Z, bp. by rewrite Hp.
  - intros (t & line & bp & Ht & Hbp & Hen & ->).
    destruct (finished_tab_spec self t) as (Hp & _ & _ & Hbl).
    cbn in Hp, Hbl.
    exists (finished_tab (debugger self) t), (line - 1)%Z.
    split; [by apply list_elem_of_fmap_2|]. split.
    + rewrite Hbl. apply finished_tab_markers. exists bp.
      by replace (line - 1 + 1)%Z with line by lia.
    + rewrite Hp. f_equal. lia.
Qed.

Lemma enabled_breakpoints_reapplied_witness :
  ∃ self1 self2 d',
    finished 0 0 marked_session = Done tt self1 ∧
    stop self1 = Done tt self2 ∧
    debug_on_bootstrap (with_debugger (Some (mkDebugger ∅ [])) self2)
      = Done tt (with_debugger (Some d') self2) ∧
    Req_create a_py 5 ∈ outbox d'.
Proof.
  destruct (enabled_breakpoints_reapplied 0 0 marked_session (mkDebugger ∅ []))
    as (self1 & self2 & d' & sent & Hfin & Hstop & Hboot & Hout & Hsent).
  - unfold has_buttons, actions. repeat constructor; intros _; eexists;
      vm_compute; reflexivity.
  - exists self1, self2, d'. repeat split; try assumption.
    rewrite Hout. cbn. apply elem_of_app. left. apply Hsent.
    exists marked_tab, 5%Z, (mkBreakpoint a_py 5 true 0).
    split; [by left|]. split; [vm_compute; reflexivity|]. by split.
Defined.

(** ** The store after bootstrap *)

Definition enabled_at (d : Debugger) (file : filename) (line : Z) : Prop :=
  ∃ bp, Client.breakpoints d file !! line = Some bp ∧ bp_enabled bp = true.

Lemma create_enabled_at file line d :
  enabled_at (Client.create_breakpoint file line d) file line.
Proof.
  unfold enabled_at. rewrite breakpoints_create, decide_True by done.
  rewrite lookup_insert_eq.
  destruct (Client.breakpoints d file !! line); eauto.
Qed.

Lemma create_keeps_enabled file' line' d file line :
  enabled_at d file line →
  enabled_at (Client.create_breakpoint file' line' d) file line.
Proof.
  intros (bp & Hbp & Hen). unfold enabled_at. rewrite breakpoints_create.
  case_decide; [subst file'|eauto].
  rewrite lookup_insert. case_decide; [subst line'|eauto].
  rewrite Hbp. eauto.
Qed.

Lemma create_lines_enabled file lines : ∀ d,
  (∀ f l, enabled_at d f l → enabled_at (create_lines file lines d) f l) ∧
  (∀ line, line ∈ lines →
           enabled_at (create_lines file lines d) file (line + 1)).
Proof.
  unfold create_lines.
  induction lines as [|first lines IH]; intros d; cbn [foldl].
  - split; [done|]. intros line Hin. by apply elem_of_nil in Hin.
  - destruct (IH (Client.create_breakpoint file (first + 1) d)) as [Hkeep Hnew].
    split.
    + intros f l Hen. by apply Hkeep, create_keeps_enabled.
    + intros line Hin. apply elem_of_cons in Hin as [->|Hin]; [|by apply Hnew].
      apply Hkeep, create_enabled_at.
Qed.

Lemma create_tabs_enabled tabs : ∀ d,
  (∀ f l, enabled_at d f l → enabled_at (create_tabs tabs d) f l) ∧
  (∀ tab line, tab ∈ tabs → line ∈ breakpoint_lines tab →
               enabled_at (create_tabs tabs d) (path tab) (line + 1)).
Proof.
  unfold create_tabs.
  induction tabs as [|first tabs IH]; intros d; cbn [foldl].
  - split; [done|]. intros tab line Hin. by apply elem_of_nil in Hin.
  - destruct (IH (create_lines (path first)
                    (elements (breakpoint_lines first)) d)) as [Hkeep Hnew].
    destruct (create_lines_enabled (path first)
                (elements (breakpoint_lines first)) d) as [Hkeep1 Hnew1].
    split.
    + intros f l Hen. by apply Hkeep, Hkeep1.
    + intros tab line Hin Hline.
      apply elem_of_cons in Hin as [->|Hin]; [|by apply Hnew].
      apply Hkeep, Hnew1. by apply elem_of_elements.
Qed.

(** X12: after bootstrap the store holds an enabled record, one line further,
    for every remembered breakpoint line of every open tab.  Hence, when no
    tab shows a marker outside its remembered lines (as is the case after the
    termination event has been handled), every marker has its record and no
    toggle can miss it. *)
Theorem bootstrap_records_every_line self d :
  debugger self = Some d →
  ∃ d',
    debug_on_bootstrap self = Done tt (with_debugger (Some d') self) ∧
    (∀ tab line, tab ∈ widgets (view self) → line ∈ breakpoint_lines tab →
                 enabled_at d' (path tab) (line + 1)) ∧
    ((∀ tab, tab ∈ widgets (view self) → markers tab ⊆ breakpoint_lines tab) →
     markers_recorded (with_debugger (Some d') self)).
Proof.
  intros Hd. exists (Client.do_run (create_tabs (widgets (view self)) d)).
  split; [by apply bootstrap_with_client|].
  destruct (create_tabs_enabled (widgets (view self)) d) as [_ Hnew].
  split; [exact Hnew|].
  intros Hsub d0 i t line [= <-] Ht Hin.
  assert (t ∈ widgets (view self)) as Htab
    by (apply list_elem_of_lookup; eauto).
  destruct (Hnew t line Htab (Hsub t Htab line Hin)) as (bp & Hbp & _).
  unfold Client.do_run. rewrite breakpoints_send. eauto.
Qed.

Lemma bootstrap_records_every_line_witness :
  ∃ d',
    debug_on_bootstrap remembered = Done tt (with_debugger (Some d') remembered) ∧
    enabled_at d' a_py 10.
Proof.
  destruct (bootstrap_records_every_line remembered (mkDebugger ∅ []))
    as (d' & Hrun & Hen & _).
  - reflexivity.
  - exists d'. split; [exact Hrun|].
    apply (Hen (set_breakpoint_lines {[9%Z]} (blank_tab a_py)) 9%Z).
    + unfold remembered. cbn. by left.
    + cbn. set_solver.
Defined.

(** ** The store stays well keyed *)

Lemma send_well_keyed r d :
  Client.well_keyed d → Client.well_keyed (Client.send r d).
Proof. done. Qed.

Lemma create_lines_well_keyed file lines : ∀ d,
  Client.well_keyed d → Client.well_keyed (create_lines file lines d).
Proof.
  unfold create_lines. induction lines as [|line lines IH]; intros d Hwk;
    cbn [foldl]; [done|].
  by apply IH, create_well_keyed.
Qed.

Lemma create_tabs_well_keyed tabs : ∀ d,
  Client.well_keyed d → Client.well_keyed (create_tabs tabs d).
Proof.
  unfold create_tabs. induction tabs as [|tab tabs IH]; intros d Hwk;
    cbn [foldl]; [done|].
  by apply IH, create_lines_well_keyed.
Qed.

(** X13: if every record of the store sits under its own file and line, this
    is still so after a toggle and after bootstrap, however the call ends: the
    mode only ever creates a record under the tab's path and the line it asks
    for, and flips records it has read from the store. *)
Theorem store_stays_well_keyed self d :
  debugger self = Some d →
  Client.well_keyed d →
  (∀ line tab d',
     debugger (final_state (toggle_breakpoint line tab self)) = Some d' →
     Client.well_keyed d') ∧
  (∀ d',
     debugger (final_state (debug_on_bootstrap self)) = Some d' →
     Client.well_keyed d').
Proof.
  intros Hd Hwk. split.
  - intros line tab d'.
    destruct (tab_at tab self) as [t|] eqn:Ht;
      [|rewrite (toggle_no_tab _ _ _ _ Hd Ht); cbn; intros H; rewrite Hd in H;
        by injection H as <-].
    destruct (decide (line ∈ markers t)) as [Hm|Hm];
      destruct (Client.breakpoints d (path t) !! (line + 1)%Z) as [bp|] eqn:Hbp.
    + rewrite (toggle_off _ _ _ _ _ Hd Ht bp Hm Hbp). cbn. intros [= <-].
      by apply send_well_keyed, flip_well_keyed.
    + rewrite (toggle_off_missing _ _ _ _ _ Hd Ht Hm Hbp). cbn.
      intros H. rewrite Hd in H. by injection H as <-.
    + rewrite (toggle_on_existing _ _ _ _ _ Hd Ht bp Hm Hbp). cbn.
      intros [= <-]. by apply send_well_keyed, flip_well_keyed.
    + rewrite (toggle_on_fresh _ _ _ _ _ Hd Ht Hm Hbp). cbn. intros [= <-].
      by apply create_well_keyed.
  - intros d'. rewrite (bootstrap_with_client _ _ Hd). cbn. intros [= <-].
    by apply send_well_keyed, create_tabs_well_keyed.
Qed.

Lemma store_stays_well_keyed_witness :
  ∃ d',
    debugger (final_state (toggle_breakpoint 4 0 marked_session)) = Some d' ∧
    Client.well_keyed d'.
Proof.
  destruct (store_stays_well_keyed marked_session one_breakpoint) as [Htoggle _].
  - reflexivity.
  - unfold one_breakpoint. apply create_well_keyed.
    intros file line bp Hbp. unfold Client.breakpoints in Hbp. cbn in Hbp.
    rewrite lookup_empty in Hbp. cbn in Hbp. by rewrite lookup_empty in Hbp.
  - eexists. split; [reflexivity|]. apply (Htoggle 4%Z 0). reflexivity.
Defined.
